(** * cc-score: the scoring core of [cli.mjs], embedded and verified

    The development follows the source top to bottom: the JavaScript values
    and operators the scorers use, the [Date] arithmetic behind [addDays],
    the streak walk, the four window scorers, [scoreStreak], [grade] and the
    [total] of the main section; then the other date helpers, the colors and
    [miniBar].

    Modelling conventions.
    - A finite IEEE double is an exact rational ([Q]); [NaN] and the two
      infinities are separate constructors.  Rounding error, overflow and the
      sign of zero are outside the model.
    - The values a parsed JSON log can hold are [undefined] (an absent
      property), [null], booleans, numbers and objects.  Of an object only the
      two properties the code reads, [main] and [sub], are kept; an array is
      an object without them.  Strings and nested objects are left out: their
      [+] goes through Number-to-String conversion of doubles.
    - Date strings are strings, and the log is a finite map keyed by
      strings.  [Number] is modelled on the pieces a date string splits into:
      the empty string and strings of decimal digits; any other string is
      read as [NaN], as JavaScript does unless it is another numeric literal.
    - A [Date] object is the day number of its local midnight, or invalid;
      time of day, zone offset and the range check of [TimeClip] are not
      modelled.
    - A reading of a property of [null] or [undefined] throws; scorers run in
      an error monad so that "does not throw" is a statement, not a typing
      accident.
    - [localToday] takes its two readings of the clock as arguments: the
      time value of [new Date()] in whole milliseconds and
      [getTimezoneOffset()] in whole minutes.  Its [Date] is a time value, with
      the range check of [TimeClip].
    - Strings are strings of bytes; the two block characters of [miniBar]
      are their UTF-8 encodings.
    - [loadData], which runs another program, the help text and the lines
      that print the report are not part of the embedding; of the breakdown,
      the bars are. *)

From Stdlib Require Import ZArith QArith Qround Lia Lqa List String Ascii.
From Stdlib Require Import DecimalString DecimalZ DecimalPos DecimalFacts.
From stdpp Require Import base option list gmap strings.

Local Open Scope Z_scope.

(** ** JavaScript numbers *)

Inductive num : Type :=
| NaN
| PInf
| NInf
| Fin (q : Q).

Definition of_Z (z : Z) : num := Fin (inject_Z z).

Definition is_finite (a : num) : bool :=
  match a with
  | Fin _ => true
  | _ => false
  end.

(** Sign of a rational as a comparison with zero. *)
Definition Qsgn (q : Q) : comparison := (q ?= 0)%Q.

(** [a + b] on Numbers. *)
Definition num_add (a b : num) : num :=
  match a, b with
  | NaN, _ | _, NaN => NaN
  | PInf, NInf | NInf, PInf => NaN
  | PInf, _ | _, PInf => PInf
  | NInf, _ | _, NInf => NInf
  | Fin x, Fin y => Fin (x + y)
  end.

Definition num_neg (a : num) : num :=
  match a with
  | NaN => NaN
  | PInf => NInf
  | NInf => PInf
  | Fin x => Fin (- x)
  end.

(** The infinity of a given sign; a zero sign gives [NaN]. *)
Definition signed_inf (c : comparison) : num :=
  match c with
  | Gt => PInf
  | Lt => NInf
  | Eq => NaN
  end.

(** [a * b] on Numbers. *)
Definition num_mul (a b : num) : num :=
  match a, b with
  | NaN, _ | _, NaN => NaN
  | Fin x, Fin y => Fin (x * y)
  | PInf, PInf | NInf, NInf => PInf
  | PInf, NInf | NInf, PInf => NInf
  | PInf, Fin y | Fin y, PInf => signed_inf (Qsgn y)
  | NInf, Fin y | Fin y, NInf => num_neg (signed_inf (Qsgn y))
  end.

(** [a / b] on Numbers.  A finite numerator over a zero denominator is an
    infinity of the numerator's sign, and [0 / 0] is [NaN]. *)
Definition num_div (a b : num) : num :=
  match a, b with
  | NaN, _ | _, NaN => NaN
  | Fin x, Fin y =>
      match Qsgn y with
      | Eq => signed_inf (Qsgn x)
      | _ => Fin (x / y)
      end
  | Fin _, (PInf | NInf) => Fin 0
  | (PInf | NInf), (PInf | NInf) => NaN
  | PInf, Fin y => match Qsgn y with Lt => NInf | _ => PInf end
  | NInf, Fin y => match Qsgn y with Lt => PInf | _ => NInf end
  end.

(** [a < b] on Numbers: false as soon as one side is [NaN]. *)
Definition num_lt (a b : num) : bool :=
  match a, b with
  | NaN, _ | _, NaN => false
  | _, NInf => false
  | NInf, _ => true
  | PInf, _ => false
  | Fin _, PInf => true
  | Fin x, Fin y => match (x ?= y)%Q with Lt => true | _ => false end
  end.

Definition num_gt (a b : num) : bool := num_lt b a.

(** Equality of two Numbers as [===] sees it: [NaN] equals nothing. *)
Definition num_eq (a b : num) : bool :=
  match a, b with
  | PInf, PInf | NInf, NInf => true
  | Fin x, Fin y => Qeq_bool x y
  | _, _ => false
  end.

(** [a >= b]: neither side [NaN] and not [a < b]. *)
Definition num_ge (a b : num) : bool :=
  match a, b with
  | NaN, _ | _, NaN => false
  | _, _ => negb (num_lt a b)
  end.

(** [Math.round]: the nearest integer, a tie going towards +infinity. *)
Definition Math_round (a : num) : num :=
  match a with
  | Fin x => of_Z (Qfloor (x + (1 # 2)))
  | other => other
  end.

(** [Math.min] of two arguments. *)
Definition Math_min (a b : num) : num :=
  match a, b with
  | NaN, _ | _, NaN => NaN
  | _, _ => if num_lt b a then b else a
  end.

(** ** JavaScript values of a parsed log *)

Inductive prim : Type :=
| JUndefined
| JNull
| JBool (b : bool)
| JNum (n : num).

Inductive jsval : Type :=
| Prim (p : prim)
| JObj (main sub : prim).

Definition js_zero : prim := JNum (of_Z 0).

(** ToBoolean. *)
Definition truthy_prim (p : prim) : bool :=
  match p with
  | JUndefined | JNull => false
  | JBool b => b
  | JNum NaN => false
  | JNum (Fin q) => negb (Qeq_bool q 0)
  | JNum _ => true
  end.

Definition truthy (v : jsval) : bool :=
  match v with
  | Prim p => truthy_prim p
  | JObj _ _ => true
  end.

(** ToNumber on primitives. *)
Definition ToNumber (p : prim) : num :=
  match p with
  | JUndefined => NaN
  | JNull => of_Z 0
  | JBool true => of_Z 1
  | JBool false => of_Z 0
  | JNum n => n
  end.

(** [a || b]. *)
Definition js_or (a b : prim) : prim := if truthy_prim a then a else b.

(** [a + b] on primitives that are not strings: both sides go through
    ToNumber. *)
Definition js_plus (a b : prim) : num := num_add (ToNumber a) (ToNumber b).

(** [a > b] on primitives that are not strings. *)
Definition js_greater (a b : prim) : bool := num_gt (ToNumber a) (ToNumber b).

(** [a === b]: same type and same value. *)
Definition js_strict_eq (a b : prim) : bool :=
  match a, b with
  | JUndefined, JUndefined | JNull, JNull => true
  | JBool x, JBool y => Bool.eqb x y
  | JNum x, JNum y => num_eq x y
  | _, _ => false
  end.

(** Outcome of an expression that may throw. *)
Inductive result (A : Type) : Type :=
| Ok (a : A)
| TypeError.

Arguments Ok {A} a.
Arguments TypeError {A}.

#[global] Instance result_ret : MRet result := fun _ a => Ok a.
#[global] Instance result_bind : MBind result := fun _ _ f m =>
  match m with
  | Ok a => f a
  | TypeError => TypeError
  end.

(** ** Date strings *)

(** The three numbers of a date: what [split('-').map(Number)] reads from
    a date string and what the template literal of [addDays] prints. *)
Record date : Type := mkDate { year : Z; month : Z; day : Z }.

#[global] Instance date_eq_dec : EqDecision date.
Proof. solve_decision. Defined.

(** [s.split('-')]. *)
Fixpoint split_dash (s : string) : list string :=
  match s with
  | EmptyString => [EmptyString]
  | String c rest =>
      if Ascii.eqb c "-" then EmptyString :: split_dash rest
      else match split_dash rest with
           | piece :: pieces => String c piece :: pieces
           | [] => [String c EmptyString]
           end
  end.

(** [Number(s)] on the empty string and on strings of decimal digits;
    [None] is [NaN]. *)
Definition Number (s : string) : option Z :=
  match s with
  | EmptyString => Some 0
  | _ => option_map Z.of_uint (NilEmpty.uint_of_string s)
  end.

(** [String(z)], also the text of [z] in a template literal, for an
    integer [z]. *)
Definition js_String (z : Z) : string := NilZero.string_of_int (Z.to_int z).

(** [s.padStart(2, '0')]. *)
Definition padStart2 (s : string) : string :=
  match String.length s with
  | O => "00"
  | S O => String "0" s
  | _ => s
  end.

(** [const [y, m, d] = dateStr.split('-').map(Number)]: the first three
    pieces.  A piece that is missing or is [NaN] makes the [Date] built from
    them invalid, here [None]. *)
Definition read_date (dateStr : string) : option date :=
  match map Number (split_dash dateStr) with
  | Some y :: Some m :: Some d :: _ => Some (mkDate y m d)
  | _ => None
  end.

(** The template literal
    [`${year}-${String(month).padStart(2,'0')}-${String(day).padStart(2,'0')}`]. *)
Definition print_date (dt : date) : string :=
  (js_String (year dt) ++ "-" ++ padStart2 (js_String (month dt))
     ++ "-" ++ padStart2 (js_String (day dt)))%string.

(** ** The [Date] object

    The functions below are those of ECMA-262, section "Date objects", on
    day numbers: [Day(t)] of a local midnight [t]. *)

Definition DaysInYear (y : Z) : Z :=
  if negb (y mod 4 =? 0) then 365
  else if negb (y mod 100 =? 0) then 366
  else if negb (y mod 400 =? 0) then 365
  else 366.

Definition DayFromYear (y : Z) : Z :=
  365 * (y - 1970) + (y - 1969) / 4 - (y - 1901) / 100 + (y - 1601) / 400.

(** [YearFromTime]: the largest [y] with [DayFromYear y <= n].  The estimate
    from the mean year length is off by one at most, and is then adjusted;
    [YearFromTime_largest] states the characterisation of the standard. *)
Definition YearFromTime (n : Z) : Z :=
  let y := 1970 + (400 * n) / 146097 in
  if n <? DayFromYear y then y - 1
  else if DayFromYear (y + 1) <=? n then y + 1
  else y.

Definition InLeapYear (n : Z) : Z :=
  if DaysInYear (YearFromTime n) =? 366 then 1 else 0.

Definition DayWithinYear (n : Z) : Z := n - DayFromYear (YearFromTime n).

Definition MonthFromTime (n : Z) : Z :=
  let d := DayWithinYear n in
  let l := InLeapYear n in
  if d <? 31 then 0
  else if d <? 59 + l then 1
  else if d <? 90 + l then 2
  else if d <? 120 + l then 3
  else if d <? 151 + l then 4
  else if d <? 181 + l then 5
  else if d <? 212 + l then 6
  else if d <? 243 + l then 7
  else if d <? 273 + l then 8
  else if d <? 304 + l then 9
  else if d <? 334 + l then 10
  else 11.

Definition DateFromTime (n : Z) : Z :=
  let d := DayWithinYear n in
  let l := InLeapYear n in
  match MonthFromTime n with
  | 0 => d + 1
  | 1 => d - 30
  | 2 => d - 58 - l
  | 3 => d - 89 - l
  | 4 => d - 119 - l
  | 5 => d - 150 - l
  | 6 => d - 180 - l
  | 7 => d - 211 - l
  | 8 => d - 242 - l
  | 9 => d - 272 - l
  | 10 => d - 303 - l
  | _ => d - 333 - l
  end.

(** Day within the year of the first day of month [mn] (0-based), the
    boundaries of [MonthFromTime]. *)
Definition MonthStart (leap mn : Z) : Z :=
  match mn with
  | 0 => 0
  | 1 => 31
  | 2 => 59 + leap
  | 3 => 90 + leap
  | 4 => 120 + leap
  | 5 => 151 + leap
  | 6 => 181 + leap
  | 7 => 212 + leap
  | 8 => 243 + leap
  | 9 => 273 + leap
  | 10 => 304 + leap
  | _ => 334 + leap
  end.

(** [MakeDay(year, month, date)]: the day of the first of the month, found
    as the standard asks ([MakeDay_first_of_month]), plus [date - 1]. *)
Definition MakeDay (yr mo dt : Z) : Z :=
  let ym := yr + mo / 12 in
  let mn := mo mod 12 in
  let leap := if DaysInYear ym =? 366 then 1 else 0 in
  DayFromYear ym + MonthStart leap mn + dt - 1.

(** [new Date(y, m, d)]: a year from 0 to 99 stands for 1900 + year. *)
Definition new_Date (y m d : Z) : Z :=
  let yr := if (0 <=? y) && (y <=? 99) then 1900 + y else y in
  MakeDay yr m d.

Definition getFullYear (t : Z) : Z := YearFromTime t.
Definition getMonth (t : Z) : Z := MonthFromTime t.
Definition getDate (t : Z) : Z := DateFromTime t.

(** [dt.setDate(v)] returns the new value of [dt]. *)
Definition setDate (t v : Z) : Z :=
  MakeDay (YearFromTime t) (MonthFromTime t) v.

(** The second and third line of [addDays], and the three getters of its
    last line, on the numbers read from the date string. *)
Definition shift_date (ymd : date) (n : Z) : date :=
  let y := year ymd in
  let m := month ymd in
  let d := day ymd in
  let dt := new_Date y (m - 1) d in
  let dt := setDate dt (getDate dt + n) in
  mkDate (getFullYear dt) (getMonth dt + 1) (getDate dt).

(** An invalid [Date] stays invalid under [setDate], and its getters give
    [NaN]. *)
Definition addDays (dateStr : string) (n : Z) : string :=
  match read_date dateStr with
  | Some ymd => print_date (shift_date ymd n)
  | None => "NaN-NaN-NaN"
  end.

(** *** The calendar as the specification words it

    A date is a (year, month, day) triple with an explicit day decrement. *)

Definition is_leap (y : Z) : bool :=
  (y mod 4 =? 0) && (negb (y mod 100 =? 0) || (y mod 400 =? 0)).

Definition days_in_month (y m : Z) : Z :=
  match m with
  | 2 => if is_leap y then 29 else 28
  | 4 | 6 | 9 | 11 => 30
  | _ => 31
  end.

Definition prev_day (d : date) : date :=
  if 1 <? day d then mkDate (year d) (month d) (day d - 1)
  else if 1 <? month d
       then mkDate (year d) (month d - 1) (days_in_month (year d) (month d - 1))
       else mkDate (year d - 1) 12 31.

Definition valid_date (d : date) : Prop :=
  1 <= month d <= 12 /\ 1 <= day d <= days_in_month (year d) (month d).

(** The dates an ISO string [YYYY-MM-DD] denotes, and these strings. *)
Definition iso_date (d : date) : Prop :=
  1000 <= year d <= 9999 /\ valid_date d.

Definition iso_string (s : string) : Prop :=
  exists d, iso_date d /\ s = print_date d.

(** Calendar order. *)
Definition date_lt (a b : date) : Prop :=
  year a < year b
  \/ (year a = year b /\ (month a < month b
                         \/ (month a = month b /\ day a < day b))).

Definition date_le (a b : date) : Prop := a = b \/ date_lt a b.

(** [n] days before [d], by repeated decrement. *)
Fixpoint days_before (n : nat) (d : date) : date :=
  match n with
  | O => d
  | S k => prev_day (days_before k d)
  end.

(** Day number of a date and date of a day number, as [shift_date]
    converts them once the year is taken as written. *)
Definition to_day (d : date) : Z := MakeDay (year d) (month d - 1) (day d).

Definition from_day (t : Z) : date :=
  mkDate (getFullYear t) (getMonth t + 1) (getDate t).

(** Years that [new Date] takes as written. *)
Definition plain_year (d : date) : Prop := year d < 0 \/ 100 <= year d.

(** The decimal digits of a natural number, and the two digits of a month
    or day. *)
Definition digits_of (z : Z) : Decimal.uint :=
  match Z.to_int z with
  | Decimal.Pos u => u
  | Decimal.Neg u => u
  end.

Definition two_digits (z : Z) : Decimal.uint :=
  if z <? 10 then Decimal.D0 (digits_of z) else digits_of z.

Definition two_digits_ok (z : Z) : bool :=
  String.eqb (padStart2 (js_String z)) (NilEmpty.string_of_uint (two_digits z))
  && Nat.eqb (String.length (padStart2 (js_String z))) 2
  && (Z.of_uint (two_digits z) =? z).

Definition leap_days (y : Z) : Z := if is_leap y then 1 else 0.

(** ** The usage log *)

(** [byDate[d]]: an absent key reads as [undefined]. *)
Definition lookup_day (byDate : gmap string jsval) (d : string) : jsval :=
  default (Prim JUndefined) (byDate !! d).

(** [typeof v === 'object' ? (v.main || 0) + (v.sub || 0) : (v || 0)].
    [typeof null] is ['object'] too, and reading [null.main] throws. *)
Definition hours_of (v : jsval) : result prim :=
  match v with
  | JObj m s => mret (JNum (js_plus (js_or m js_zero) (js_or s js_zero)))
  | Prim JNull => TypeError
  | Prim p => mret (js_or p js_zero)
  end.

(** [typeof v === 'object' ? (v.main || 0) : 0]. *)
Definition main_of (v : jsval) : result prim :=
  match v with
  | JObj m _ => mret (js_or m js_zero)
  | Prim JNull => TypeError
  | Prim _ => mret js_zero
  end.

(** [typeof v === 'object' ? (v.sub || 0) : (v || 0)]. *)
Definition sub_of (v : jsval) : result prim :=
  match v with
  | JObj _ s => mret (js_or s js_zero)
  | Prim JNull => TypeError
  | Prim p => mret (js_or p js_zero)
  end.

(** [for (let i = 0; i < window; i++) body]: the body runs on
    [0, 1, ..., window - 1] in turn, threading the loop variables. *)
Fixpoint for_each {A B : Type} (body : B -> A -> result B) (l : list A)
    (acc : B) : result B :=
  match l with
  | [] => mret acc
  | x :: rest => acc' ← body acc x; for_each body rest acc'
  end.

Definition for_window {B : Type} (window : nat) (body : B -> nat -> result B)
    (init : B) : result B :=
  for_each body (seq 0 window) init.

(** ** Streak calculation *)

(** The [while (byDate[d])] loop; [fuel] bounds the number of times the
    condition is evaluated, and [None] means the bound was reached. *)
Fixpoint streak_loop (fuel : nat) (byDate : gmap string jsval) (d : string)
    (streak : Z) : option (result Z) :=
  match fuel with
  | O => None
  | S fuel' =>
      let v := lookup_day byDate d in
      if truthy v then
        match hours_of v with
        | TypeError => Some TypeError
        | Ok active =>
            if js_strict_eq active js_zero then Some (Ok streak)
            else streak_loop fuel' byDate (addDays d (-1)) (streak + 1)
        end
      else Some (Ok streak)
  end.

Definition streak_start (byDate : gmap string jsval) (today : string) : string :=
  if negb (truthy (lookup_day byDate today)) then addDays today (-1)
  else today.

Definition computeStreak (fuel : nat) (byDate : gmap string jsval)
    (today : string) : option (result Z) :=
  streak_loop fuel byDate (streak_start byDate today) 0.

(** ** Score components *)

Record consistency : Type := mkConsistency {
  c_raw : num; c_points : num; c_activeDays : Z; c_window : nat }.

Record autonomy : Type := mkAutonomy {
  a_ratio : num; a_points : num; a_mainHours : num; a_subHours : num }.

Record ghost : Type := mkGhost {
  g_ghostDays : Z; g_activeDays : Z; g_pct : num; g_points : num }.

Record volume : Type := mkVolume { v_totalHours : num; v_points : num }.

Record streak_score : Type := mkStreak { s_streak : Z; s_points : num }.

Definition of_nat (n : nat) : num := of_Z (Z.of_nat n).

(** Each loop body is split in two: the lines that compute [d] and read
    [v = byDate[d]], and the rest of the body as a function of [v]. *)
Definition consistency_day (v : jsval) (active : Z) : result Z :=
  if negb (truthy v) then mret active
  else
    hours ← hours_of v;
    mret (if js_greater hours js_zero then active + 1 else active).

Definition consistency_body (byDate : gmap string jsval) (today : string)
    (active : Z) (i : nat) : result Z :=
  let d := addDays today (- Z.of_nat i) in
  let v := lookup_day byDate d in
  consistency_day v active.

Definition scoreConsistency (byDate : gmap string jsval) (today : string)
    (window : nat) : result consistency :=
  active ← for_window window (consistency_body byDate today) 0;
  let pct := num_div (of_Z active) (of_nat window) in
  mret (mkConsistency pct (Math_round (num_mul pct (of_Z 30))) active window).

Definition autonomy_day (v : jsval) (acc : num * num) : result (num * num) :=
  let '(main, sub) := acc in
  if negb (truthy v) then mret (main, sub)
  else
    m ← main_of v;
    s ← sub_of v;
    mret (js_plus (JNum main) m, js_plus (JNum sub) s).

Definition autonomy_body (byDate : gmap string jsval) (today : string)
    (acc : num * num) (i : nat) : result (num * num) :=
  let d := addDays today (- Z.of_nat i) in
  let v := lookup_day byDate d in
  autonomy_day v acc.

Definition autonomy_ratio (main sub : num) : num :=
  if num_gt main (of_Z 0) then num_div sub main
  else if num_gt sub (of_Z 0) then of_Z 2 else of_Z 0.

Definition scoreAutonomy (byDate : gmap string jsval) (today : string)
    (window : nat) : result autonomy :=
  acc ← for_window window (autonomy_body byDate today) (of_Z 0, of_Z 0);
  let '(main, sub) := acc in
  let ratio := autonomy_ratio main sub in
  let points := Math_min (of_Z 25) (Math_round (num_mul ratio (Fin (25 # 2)))) in
  mret (mkAutonomy ratio points main sub).

Definition ghost_day (v : jsval) (acc : Z * Z) : result (Z * Z) :=
  let '(ghost, active) := acc in
  if negb (truthy v) then mret (ghost, active)
  else
    m ← main_of v;
    s ← sub_of v;
    mret (if js_greater m js_zero || js_greater s js_zero
          then (if js_strict_eq m js_zero && js_greater s js_zero
                then ghost + 1 else ghost, active + 1)
          else (ghost, active)).

Definition ghost_body (byDate : gmap string jsval) (today : string)
    (acc : Z * Z) (i : nat) : result (Z * Z) :=
  let d := addDays today (- Z.of_nat i) in
  let v := lookup_day byDate d in
  ghost_day v acc.

Definition scoreGhostDays (byDate : gmap string jsval) (today : string)
    (window : nat) : result ghost :=
  acc ← for_window window (ghost_body byDate today) (0, 0);
  let '(ghost, active) := acc in
  let pct := if num_gt (of_Z active) (of_Z 0)
             then num_div (of_Z ghost) (of_Z active) else of_Z 0 in
  let points := Math_min (of_Z 20) (Math_round (num_mul pct (of_Z 25))) in
  mret (mkGhost ghost active pct points).

Definition volume_day (v : jsval) (total : num) : result num :=
  if negb (truthy v) then mret total
  else
    hours ← hours_of v;
    mret (js_plus (JNum total) hours).

Definition volume_body (byDate : gmap string jsval) (today : string)
    (total : num) (i : nat) : result num :=
  let d := addDays today (- Z.of_nat i) in
  let v := lookup_day byDate d in
  volume_day v total.

Definition scoreVolume (byDate : gmap string jsval) (today : string)
    (window : nat) : result volume :=
  total ← for_window window (volume_body byDate today) (of_Z 0);
  let points :=
    Math_min (of_Z 15)
             (Math_round (num_mul (num_div total (of_Z 100)) (of_Z 15))) in
  mret (mkVolume total points).

Definition scoreStreak (streak : Z) : streak_score :=
  let points :=
    Math_min (of_Z 10)
             (Math_round (num_mul (num_div (of_Z streak) (of_Z 30)) (of_Z 10))) in
  mkStreak streak points.

(** ** Grade *)

Record tier : Type := mkTier { t_grade : string; t_label : string; t_desc : string }.

Definition grade (score : num) : tier :=
  if num_ge score (of_Z 90)
  then mkTier "S" "Cyborg" "You and AI are seamlessly fused."
  else if num_ge score (of_Z 75)
  then mkTier "A" "Power User" "Serious AI collaboration."
  else if num_ge score (of_Z 60)
  then mkTier "B" "Growing" "Your AI habits are taking shape."
  else if num_ge score (of_Z 45)
  then mkTier "C" "Early Stage" "Room to develop the relationship."
  else if num_ge score (of_Z 30)
  then mkTier "D" "Getting Started" "Keep going."
  else mkTier "F" "Dormant" "Wake up your AI.".

(** ** Main *)

Record report : Type := mkReport {
  r_score : num;
  r_tier : tier;
  r_consistency : consistency;
  r_autonomy : autonomy;
  r_ghost : ghost;
  r_volume : volume;
  r_streak : streak_score }.

(** Sequencing of a step that may throw or exhaust the fuel of the streak
    walk. *)
Definition and_then {A B : Type} (m : option (result A))
    (k : A -> option (result B)) : option (result B) :=
  match m with
  | None => None
  | Some TypeError => Some TypeError
  | Some (Ok a) => k a
  end.

(** The scoring part of the main section, from [byDate] and [today] to the
    values that are printed; the four window scorers take their default
    window of 30. *)
Definition score_report (fuel : nat) (byDate : gmap string jsval)
    (today : string) : option (result report) :=
  and_then (Some (scoreConsistency byDate today 30)) (fun consistency =>
  and_then (Some (scoreAutonomy byDate today 30)) (fun autonomy =>
  and_then (Some (scoreGhostDays byDate today 30)) (fun ghostScore =>
  and_then (Some (scoreVolume byDate today 30)) (fun volume =>
  and_then (computeStreak fuel byDate today) (fun n =>
  let streak := scoreStreak n in
  let total :=
    num_add (num_add (num_add (num_add (c_points consistency)
                                       (a_points autonomy))
                              (g_points ghostScore))
                     (v_points volume))
            (s_points streak) in
  Some (Ok (mkReport total (grade total) consistency autonomy ghostScore
                     volume streak))))))).

(** ** Vocabulary of the statements *)

Definition Qlt_bool (x y : Q) : bool :=
  match (x ?= y)%Q with
  | Lt => true
  | _ => false
  end.

(** The walk of [computeStreak] goes on from a day exactly when the day's
    record is truthy and its hours are not [=== 0]
    ([streak_loop_step]). *)
Definition is_active (v : jsval) : bool :=
  truthy v &&
  match hours_of v with
  | Ok a => negb (js_strict_eq a js_zero)
  | TypeError => false
  end.

(** Well-typed day records: a non-negative number, or an object whose
    [main] and [sub] are each absent or a non-negative number. *)
Definition nonneg_num (n : num) : bool :=
  match n with
  | Fin q => Qle_bool 0 q
  | _ => false
  end.

Definition hours_field (p : prim) : bool :=
  match p with
  | JUndefined => true
  | JNum n => nonneg_num n
  | _ => false
  end.

Definition day_record (v : jsval) : bool :=
  match v with
  | Prim (JNum n) => nonneg_num n
  | Prim _ => false
  | JObj m s => hours_field m && hours_field s
  end.

Definition usage_log (byDate : gmap string jsval) : Prop :=
  map_Forall (fun _ v => day_record v = true) byDate.

(** Hours of a well-typed record, primary plus secondary. *)
Definition field_hours (p : prim) : Q :=
  match p with
  | JNum (Fin q) => q
  | _ => 0%Q
  end.

Definition record_hours (v : jsval) : Q :=
  match v with
  | Prim p => field_hours p
  | JObj m s => (field_hours m + field_hours s)%Q
  end.

Definition positive_activity (v : jsval) : bool :=
  day_record v && Qlt_bool 0 (record_hours v).

(** Values a JSON text can denote: every number is finite. *)
Definition json_prim (p : prim) : bool :=
  match p with
  | JNum n => is_finite n
  | _ => true
  end.

Definition json_val (v : jsval) : bool :=
  match v with
  | Prim p => json_prim p
  | JObj m s => json_prim m && json_prim s
  end.

Definition json_log (byDate : gmap string jsval) : Prop :=
  map_Forall (fun _ v => json_val v = true) byDate.

(** A log whose keys are ISO date strings. *)
Definition iso_keys (byDate : gmap string jsval) : Prop :=
  map_Forall (fun k _ => iso_string k) byDate.

(** The dates the window loops compute, in loop order. *)
Definition window_dates (today : string) (window : nat) : list string :=
  map (fun i => addDays today (- Z.of_nat i)) (seq 0 window).

(** Two records that no scorer and no step of the streak walk tells
    apart. *)
Definition same_day (v1 v2 : jsval) : Prop :=
  (forall a, consistency_day v1 a = consistency_day v2 a)
  /\ (forall a, autonomy_day v1 a = autonomy_day v2 a)
  /\ (forall a, ghost_day v1 a = ghost_day v2 a)
  /\ (forall a, volume_day v1 a = volume_day v2 a)
  /\ truthy v1 = truthy v2
  /\ is_active v1 = is_active v2.

(** A record that exists and whose hours are [=== 0]. *)
Definition zero_hours (v : jsval) : bool :=
  match hours_of v with
  | Ok a => js_strict_eq a js_zero
  | TypeError => false
  end.

(** The five results of a run, side by side. *)
Definition all_scores (fuel : nat) (byDate : gmap string jsval) (today : string)
    (w : nat) :=
  (scoreConsistency byDate today w, scoreAutonomy byDate today w,
   scoreGhostDays byDate today w, scoreVolume byDate today w,
   computeStreak fuel byDate today).

(** The grade table of the specification: lowest total, highest total,
    tier, label. *)
Definition grade_table : list (Z * Z * string * string) :=
  [ (90, 100, "S", "Cyborg");
    (75, 89, "A", "Power User");
    (60, 74, "B", "Growing");
    (45, 59, "C", "Early Stage");
    (30, 44, "D", "Getting Started");
    (0, 29, "F", "Dormant") ]%string.

(** What the specification asks of a report: integer component points
    within their maxima, adding up to a total within [0, 100]. *)
Definition report_in_bounds (r : report) : Prop :=
  exists c a g v s q,
    c_points (r_consistency r) = of_Z c /\ 0 <= c <= 30
    /\ a_points (r_autonomy r) = of_Z a /\ 0 <= a <= 25
    /\ g_points (r_ghost r) = of_Z g /\ 0 <= g <= 20
    /\ v_points (r_volume r) = of_Z v /\ 0 <= v <= 15
    /\ s_points (r_streak r) = of_Z s /\ 0 <= s <= 10
    /\ r_score r
       = num_add (num_add (num_add (num_add (c_points (r_consistency r))
                                            (a_points (r_autonomy r)))
                                   (g_points (r_ghost r)))
                          (v_points (r_volume r)))
                 (s_points (r_streak r))
    /\ r_score r = Fin q /\ (q == inject_Z (c + a + g + v + s))%Q
    /\ 0 <= c + a + g + v + s <= 100
    /\ c = c_activeDays (r_consistency r).

(** The report of a log without keys. *)
Definition empty_report : report :=
  mkReport (of_Z 0) (mkTier "F" "Dormant" "Wake up your AI.")
    (mkConsistency (Fin (0 # 30)) (of_Z 0) 0 30)
    (mkAutonomy (of_Z 0) (of_Z 0) (of_Z 0) (of_Z 0))
    (mkGhost 0 0 (of_Z 0) (of_Z 0))
    (mkVolume (of_Z 0) (of_Z 0))
    (mkStreak 0 (of_Z 0)).

(** ** The rest of the file

    *** More JavaScript: subtraction, [repeat] and [padStart] *)

(** [a - b] on Numbers. *)
Definition num_sub (a b : num) : num := num_add a (num_neg b).

(** Outcome of a call that may throw a [RangeError]. *)
Inductive ranged (A : Type) : Type :=
| InRange (a : A)
| RangeError.

Arguments InRange {A} a.
Arguments RangeError {A}.

#[global] Instance ranged_ret : MRet ranged := fun _ a => InRange a.
#[global] Instance ranged_bind : MBind ranged := fun _ _ f m =>
  match m with
  | InRange a => f a
  | RangeError => RangeError
  end.

(** The integer part of a rational, towards zero. *)
Definition Qtrunc (q : Q) : Z := Z.quot (Qnum q) (Z.pos (Qden q)).

(** [n] copies of [s] in a row. *)
Fixpoint copies (n : nat) (s : string) : string :=
  match n with
  | O => EmptyString
  | S k => (s ++ copies k s)%string
  end.

(** [s.repeat(count)]: [count] goes through ToIntegerOrInfinity, which
    takes [NaN] to 0 and drops the fraction; a negative or infinite count
    throws. *)
Definition js_repeat (s : string) (count : num) : ranged string :=
  match count with
  | NaN => InRange EmptyString
  | PInf | NInf => RangeError
  | Fin q =>
      let n := Qtrunc q in
      if n <? 0 then RangeError else InRange (copies (Z.to_nat n) s)
  end.

(** The first [n] characters of [fill] repeated over and over, [cur] being
    what is left of the copy at hand. *)
Fixpoint filler (fill cur : string) (n : nat) : string :=
  match n with
  | O => EmptyString
  | S k =>
      match cur with
      | String c rest => String c (filler fill rest k)
      | EmptyString =>
          match fill with
          | String c rest => String c (filler fill rest k)
          | EmptyString => EmptyString
          end
      end
  end.

(** [s.padStart(maxLength, fill)]. *)
Definition padStart (s : string) (maxLength : nat) (fill : string) : string :=
  (filler fill fill (maxLength - String.length s) ++ s)%string.

(** *** ANSI colors *)

Definition ESC : ascii := "027"%char.

Module C.
Definition reset : string := String ESC "[0m".
Definition bold : string := String ESC "[1m".
Definition dim : string := String ESC "[2m".
Definition cyan : string := String ESC "[96m".
Definition yellow : string := String ESC "[93m".
Definition green : string := String ESC "[92m".
Definition red : string := String ESC "[91m".
Definition gray : string := String ESC "[90m".
Definition orange : string := String ESC "[33m".
Definition purple : string := String ESC "[95m".
End C.

Definition scoreColor (score : num) : string :=
  if num_ge score (of_Z 90) then C.purple
  else if num_ge score (of_Z 75) then C.green
  else if num_ge score (of_Z 60) then C.cyan
  else if num_ge score (of_Z 45) then C.yellow
  else if num_ge score (of_Z 30) then C.orange
  else C.red.

(** [miniBar], called with its three arguments as the breakdown does.  The
    template literal evaluates the two [repeat] calls from left to right; the
    first that throws ends the call. *)
Definition miniBar (points maxPoints width : num) : ranged string :=
  let filled := Math_round (num_mul (num_div points maxPoints) width) in
  full ← js_repeat "█" filled;
  empty ← js_repeat "░" (num_sub width filled);
  mret (C.cyan ++ full ++ C.dim ++ empty ++ C.reset)%string.

(** *** Date helpers: [parseDateLocal] and [localToday] *)

(** [parseDateLocal]: the [Date] of the three numbers, [None] when it is
    invalid. *)
Definition parseDateLocal (str : string) : option Z :=
  ymd ← read_date str;
  Some (new_Date (year ymd) (month ymd - 1) (day ymd)).

Definition msPerDay : Z := 86400000.

(** Time values are whole milliseconds since the epoch; [TimeClip] makes
    those beyond 8.64e15 invalid. *)
Definition TimeClip (t : Z) : option Z :=
  if Z.abs t <=? 8640000000000000 then Some t else None.

Definition Day (t : Z) : Z := t / msPerDay.
Definition HourFromTime (t : Z) : Z := (t / 3600000) mod 24.
Definition MinFromTime (t : Z) : Z := (t / 60000) mod 60.
Definition SecFromTime (t : Z) : Z := (t / 1000) mod 60.
Definition msFromTime (t : Z) : Z := t mod 1000.

(** A number in at least [n] decimal digits. *)
Definition digits (n : nat) (z : Z) : string := padStart (js_String z) n "0".

(** [toISOString]: [YYYY-MM-DDTHH:mm:ss.sssZ] in UTC, the year in four
    digits from 0 to 9999 and in six digits with a sign otherwise; an
    invalid [Date] throws. *)
Definition toISOString (tv : option Z) : ranged string :=
  match tv with
  | None => RangeError
  | Some t =>
      let y := YearFromTime (Day t) in
      let yyyy :=
        if (0 <=? y) && (y <=? 9999) then digits 4 y
        else if 0 <=? y then ("+" ++ digits 6 y)%string
        else ("-" ++ digits 6 (- y))%string in
      InRange (yyyy ++ "-" ++ digits 2 (MonthFromTime (Day t) + 1)
                 ++ "-" ++ digits 2 (DateFromTime (Day t))
                 ++ "T" ++ digits 2 (HourFromTime t)
                 ++ ":" ++ digits 2 (MinFromTime t)
                 ++ ":" ++ digits 2 (SecFromTime t)
                 ++ "." ++ digits 3 (msFromTime t) ++ "Z")%string
  end.

(** [localToday], from the two readings of the clock it makes: the time
    value of [new Date()] and [getTimezoneOffset()], in minutes. *)
Definition localToday (now offset : Z) : ranged string :=
  iso ← toISOString (TimeClip (now - offset * 60000));
  mret (substring 0 10 iso).

(** *** The breakdown *)

(** Label, points and maximum of the five rows; the fourth entry of a row,
    its detail text, formats fractions and is left out. *)
Definition rows (r : report) : list (string * num * num) :=
  [ ("Consistency", c_points (r_consistency r), of_Z 30);
    ("Autonomy", a_points (r_autonomy r), of_Z 25);
    ("Ghost Days", g_points (r_ghost r), of_Z 20);
    ("Volume", v_points (r_volume r), of_Z 15);
    ("Streak", s_points (r_streak r), of_Z 10) ]%string.

(** [const b = miniBar(pts, max, 10)] for each row in turn. *)
Definition row_bars (r : report) : list (ranged string) :=
  map (fun '(label, pts, max) => miniBar pts max (of_Z 10)) (rows r).

(** A bar of [k] filled cells out of [width]. *)
Definition bar (k width : nat) : string :=
  (C.cyan ++ copies k "█" ++ C.dim ++ copies (width - k) "░" ++ C.reset)%string.

(** ** Vocabulary of the further statements *)

(** What [addDays] returns for a string that is not a date. *)
Definition not_a_date : string := "NaN-NaN-NaN".

(** Primary and secondary hours of a well-typed record: a plain number is
    secondary hours. *)
Definition main_hours (v : jsval) : Q :=
  match v with
  | JObj m _ => field_hours m
  | Prim _ => 0%Q
  end.

Definition sub_hours (v : jsval) : Q :=
  match v with
  | JObj _ s => field_hours s
  | Prim p => field_hours p
  end.

(** A ghost day: positive hours, none of them primary. *)
Definition ghost_record (v : jsval) : bool :=
  positive_activity v && Qeq_bool (main_hours v) 0.

(** How many of the dates have a record that [p] holds of, and the sum of
    [f] over the records of the dates. *)
Fixpoint count_days (p : jsval -> bool) (byDate : gmap string jsval)
    (dates : list string) : Z :=
  match dates with
  | [] => 0
  | d :: rest =>
      (if p (lookup_day byDate d) then 1 else 0) + count_days p byDate rest
  end.

Fixpoint sum_days (f : jsval -> Q) (byDate : gmap string jsval)
    (dates : list string) : Q :=
  match dates with
  | [] => 0%Q
  | d :: rest => (f (lookup_day byDate d) + sum_days f byDate rest)%Q
  end.

(** The Volume points of [t] hours. *)
Definition volume_points (t : Q) : Z :=
  Z.min 15 (Qfloor (t / inject_Z 100 * inject_Z 15 + (1 # 2))).

(** ** Sample logs *)

(** A structured record with whole hours. *)
Definition hours (m s : Z) : jsval := JObj (JNum (of_Z m)) (JNum (of_Z s)).

Definition march10_date : date := mkDate 2024 3 10.

Definition february1 : string := "2024-02-01".
Definition march9 : string := "2024-03-09".
Definition march10 : string := "2024-03-10".
Definition april1 : string := "2024-04-01".

(** A record of three hours on each of the [n] days before [today], and
    no other record. *)
Definition streak_log (today : date) (n : nat) : gmap string jsval :=
  list_to_map (map (fun k => (print_date (days_before k today), hours 1 2))
                   (seq 1 n)).

(** The log behind the sample output of the README: 36 active days up to
    today, the first 22 with 2.5 hours of AI alone, the others with 6 hours of
    the user and 2 of AI; in the window, 48 hours of the user and 71 of
    AI. *)
Definition readme_day (k : nat) : jsval :=
  if (k <? 22)%nat then JObj (JNum (of_Z 0)) (JNum (Fin (5 # 2))) else hours 6 2.

Definition readme_log : gmap string jsval :=
  list_to_map (map (fun k => (print_date (days_before k march10_date), readme_day k))
                   (seq 0 36)).

(** March 10 with a record, alone, and with records 38 days earlier and 22
    days later. *)
Definition log_in_window : gmap string jsval := {[ march10 := hours 48 71 ]}.

Definition log_with_outside : gmap string jsval :=
  <[february1 := hours 5 5]> (<[april1 := hours 7 0]> log_in_window).

(** * Properties

    ** The embedding on the numbers of the specification *)

Example addDays_month_ends :
  addDays "2024-03-01" (-1) = "2024-02-29"
  /\ addDays "2023-03-01" (-1) = "2023-02-28"
  /\ addDays "1900-03-01" (-1) = "1900-02-28"
  /\ addDays "2000-03-01" (-1) = "2000-02-29"
  /\ addDays "2024-01-01" (-1) = "2023-12-31"
  /\ addDays "2024-12-31" 1 = "2025-01-01"
  /\ addDays "2024-03-10" (-29) = "2024-02-10".
Proof. vm_compute. repeat split. Qed.

(** Outside ISO strings of four-digit years [addDays] is not a calendar
    decrement: [new Date] reads a year from 0 to 99 as 1900 + year, the
    template literal does not pad the year, and a string that does not split
    into three numbers gives an invalid [Date]. *)
Example addDays_other_strings :
  addDays "0050-01-01" (-1) = "1949-12-31"
  /\ addDays "1000-01-01" (-1) = "999-12-31"
  /\ addDays "100-01-01" (-1) = "99-12-31"
  /\ addDays "99-12-31" (-1) = "1999-12-30"
  /\ addDays "today" (-1) = "NaN-NaN-NaN"
  /\ addDays "NaN-NaN-NaN" (-1) = "NaN-NaN-NaN".
Proof. vm_compute. repeat split. Qed.

(** The log of the README's sample: 30 of 30 days, 18 points of Autonomy
    where the README prints 19, 22 ghost days and 18 points, 15 points of
    Volume, a streak of 36 and 10 points; in all 91 and grade S. *)
Example readme_report :
  exists r,
    score_report 37 readme_log march10 = Some (Ok r)
    /\ c_points (r_consistency r) = of_Z 30
    /\ a_points (r_autonomy r) = of_Z 18
    /\ g_ghostDays (r_ghost r) = 22
    /\ g_points (r_ghost r) = of_Z 18
    /\ v_points (r_volume r) = of_Z 15
    /\ s_streak (r_streak r) = 36
    /\ s_points (r_streak r) = of_Z 10
    /\ r_score r = of_Z 91
    /\ t_grade (r_tier r) = "S".
Proof. eexists. split; [vm_compute; reflexivity|]. vm_compute. repeat split. Qed.

(** Activity on 15 days of the window gives 15 points of Consistency. *)
Example fifteen_days :
  scoreConsistency (streak_log march10_date 15) march10 30
  = Ok (mkConsistency (Fin (15 # 30)) (of_Z 15) 15 30).
Proof. vm_compute. reflexivity. Qed.

(** ** The calendar *)

Lemma DayFromYear_succ y : DayFromYear (y + 1) = DayFromYear y + DaysInYear y.
Proof.
  unfold DayFromYear, DaysInYear.
  repeat match goal with |- context [Z.eqb ?a ?b] => destruct (Z.eqb_spec a b) end; simpl;
  Z.to_euclidean_division_equations; lia.
Qed.

Lemma YearFromTime_bounds n :
  DayFromYear (YearFromTime n) <= n < DayFromYear (YearFromTime n + 1).
Proof.
  unfold YearFromTime.
  set (y := 1970 + 400 * n / 146097).
  destruct (Z.ltb_spec n (DayFromYear y)).
  - replace (y - 1 + 1) with y by lia. split; [|lia].
    subst y. unfold DayFromYear in *. Z.to_euclidean_division_equations. lia.
  - destruct (Z.leb_spec (DayFromYear (y + 1)) n).
    + split; [lia|].
      subst y. unfold DayFromYear in *. Z.to_euclidean_division_equations. lia.
    + lia.
Qed.

Lemma DayFromYear_mono y y' : y <= y' -> DayFromYear y + 365 * (y' - y) <= DayFromYear y'.
Proof.
  intros. unfold DayFromYear. Z.to_euclidean_division_equations. lia.
Qed.

Lemma YearFromTime_unique n y :
  DayFromYear y <= n < DayFromYear (y + 1) -> YearFromTime n = y.
Proof.
  intros Hy. pose proof (YearFromTime_bounds n) as Hb.
  set (z := YearFromTime n) in *.
  destruct (Z.lt_trichotomy z y) as [Hlt | [-> | Hgt]]; [|done|].
  - pose proof (DayFromYear_mono (z + 1) y). lia.
  - pose proof (DayFromYear_mono (y + 1) z). lia.
Qed.

Lemma DayWithinYear_bounds n : 0 <= DayWithinYear n < DaysInYear (YearFromTime n).
Proof.
  unfold DayWithinYear. pose proof (YearFromTime_bounds n).
  rewrite DayFromYear_succ in H. lia.
Qed.

Lemma MonthFromTime_range n : 0 <= MonthFromTime n <= 11.
Proof. unfold MonthFromTime. repeat case_match; lia. Qed.

(** MakeDay inverts the three readers. *)
Lemma MakeDay_readers t :
  MakeDay (YearFromTime t) (MonthFromTime t) (DateFromTime t) = t.
Proof.
  pose proof (MonthFromTime_range t) as Hm.
  unfold MakeDay.
  rewrite Z.div_small, Z.mod_small, Z.add_0_r by lia.
  fold (InLeapYear t).
  unfold DateFromTime, MonthFromTime, DayWithinYear in *.
  repeat case_match; simpl; try lia.
Qed.

Lemma DaysInYear_is_leap y : DaysInYear y = if is_leap y then 366 else 365.
Proof.
  unfold DaysInYear, is_leap.
  destruct (y mod 4 =? 0), (y mod 100 =? 0), (y mod 400 =? 0); reflexivity.
Qed.

Lemma leap_flag y : (if DaysInYear y =? 366 then 1 else 0) = leap_days y.
Proof. rewrite DaysInYear_is_leap. unfold leap_days. by destruct (is_leap y). Qed.

Ltac month_cases m :=
  assert (m = 1 \/ m = 2 \/ m = 3 \/ m = 4 \/ m = 5 \/ m = 6 \/ m = 7 \/ m = 8
          \/ m = 9 \/ m = 10 \/ m = 11 \/ m = 12) as Hcases by lia;
  repeat (destruct Hcases as [-> | Hcases]); [..| subst m].

Lemma MakeDay_valid y m d :
  1 <= m <= 12 ->
  MakeDay y (m - 1) d = DayFromYear y + MonthStart (leap_days y) (m - 1) + d - 1.
Proof.
  intros Hm. unfold MakeDay.
  rewrite Z.div_small, Z.mod_small, Z.add_0_r by lia.
  by rewrite leap_flag.
Qed.

Lemma MonthStart_next y m :
  1 <= m <= 11 ->
  MonthStart (leap_days y) m = MonthStart (leap_days y) (m - 1) + days_in_month y m.
Proof.
  intros Hm. unfold leap_days, days_in_month. month_cases m; simpl; try lia;
    destruct (is_leap y); lia.
Qed.

Lemma MonthStart_last y :
  MonthStart (leap_days y) 11 + 31 = DaysInYear y.
Proof. rewrite DaysInYear_is_leap. unfold leap_days. simpl. destruct (is_leap y); lia. Qed.

Lemma readers_of_MakeDay y m d :
  1 <= m <= 12 -> 1 <= d <= days_in_month y m ->
  let t := MakeDay y (m - 1) d in
  YearFromTime t = y /\ MonthFromTime t = m - 1 /\ DateFromTime t = d.
Proof.
  intros Hm Hd t.
  assert (Ht : t = DayFromYear y + MonthStart (leap_days y) (m - 1) + d - 1)
    by apply MakeDay_valid, Hm.
  assert (Hw : 0 <= MonthStart (leap_days y) (m - 1) + d - 1 < DaysInYear y).
  { rewrite DaysInYear_is_leap. unfold leap_days, days_in_month in *.
    month_cases m; simpl in *; destruct (is_leap y); lia. }
  assert (Hy : YearFromTime t = y).
  { apply YearFromTime_unique. rewrite DayFromYear_succ. lia. }
  split; [exact Hy|].
  unfold DateFromTime, MonthFromTime, DayWithinYear, InLeapYear.
  rewrite Hy, leap_flag, Ht.
  replace (DayFromYear y + MonthStart (leap_days y) (m - 1) + d - 1 - DayFromYear y)
    with (MonthStart (leap_days y) (m - 1) + d - 1) by lia.
  unfold leap_days, days_in_month in *.
  month_cases m; simpl in *; destruct (is_leap y); simpl;
    repeat (case_match; try lia); split; lia.
Qed.

Lemma days_in_month_ge y m : 28 <= days_in_month y m.
Proof.
  unfold days_in_month.
  destruct m as [|[[[[]|[]|]|[[]|[]|]|]|[[[]|[]|]|[[]|[]|]|]|]|]; try lia;
    destruct (is_leap y); lia.
Qed.

(** [YearFromTime n] is the largest year that starts on or before day
    [n]. *)
Lemma YearFromTime_largest n y : DayFromYear y <= n <-> y <= YearFromTime n.
Proof.
  pose proof (YearFromTime_bounds n) as [Hlo Hhi]. split.
  - intros Hy. destruct (Z.le_gt_cases y (YearFromTime n)) as [|Hgt]; [done|].
    pose proof (DayFromYear_mono (YearFromTime n + 1) y). lia.
  - intros Hy. pose proof (DayFromYear_mono y (YearFromTime n)). lia.
Qed.

(** The day [MakeDay] starts from is the first of the month asked for. *)
Lemma MakeDay_first_of_month yr mo :
  YearFromTime (MakeDay yr mo 1) = yr + mo / 12
  /\ MonthFromTime (MakeDay yr mo 1) = mo mod 12
  /\ DateFromTime (MakeDay yr mo 1) = 1.
Proof.
  pose proof (Z.mod_pos_bound mo 12 ltac:(lia)) as Hmn.
  destruct (readers_of_MakeDay (yr + mo / 12) (mo mod 12 + 1) 1) as (Hy & Hm & Hd).
  - lia.
  - pose proof (days_in_month_ge (yr + mo / 12) (mo mod 12 + 1)). lia.
  - assert (MakeDay (yr + mo / 12) (mo mod 12 + 1 - 1) 1 = MakeDay yr mo 1) as Heq.
    { cbv beta zeta delta [MakeDay].
      replace (mo mod 12 + 1 - 1) with (mo mod 12) by lia.
      rewrite Z.mod_mod, (Z.div_small (mo mod 12) 12), Z.add_0_r by lia.
      reflexivity. }
    rewrite Heq in Hy, Hm, Hd. repeat split; [done|lia|done].
Qed.

Lemma from_to_day d : valid_date d -> from_day (to_day d) = d.
Proof.
  intros [Hm Hd]. destruct d as [y m dd]; simpl in *.
  destruct (readers_of_MakeDay y m dd Hm Hd) as (Hy & Hmo & Hda).
  unfold from_day, to_day, getFullYear, getMonth, getDate; simpl.
  rewrite Hy, Hmo, Hda. f_equal. lia.
Qed.

Lemma to_from_day t : to_day (from_day t) = t.
Proof.
  unfold to_day, from_day, getFullYear, getMonth, getDate; simpl.
  replace (MonthFromTime t + 1 - 1) with (MonthFromTime t) by lia.
  apply MakeDay_readers.
Qed.

Lemma MakeDay_shift y m d n : MakeDay y m (d + n) = MakeDay y m d + n.
Proof. cbv beta zeta delta [MakeDay]. lia. Qed.

Lemma from_day_valid t : valid_date (from_day t).
Proof.
  unfold valid_date, from_day, getFullYear, getMonth, getDate; simpl.
  pose proof (DayWithinYear_bounds t) as Hw.
  rewrite DaysInYear_is_leap in Hw.
  unfold DateFromTime, MonthFromTime, InLeapYear, days_in_month in *.
  rewrite DaysInYear_is_leap.
  destruct (is_leap (YearFromTime t)); simpl in *;
    repeat (case_match; try lia).
Qed.

Lemma shift_date_day_number d n :
  valid_date d -> plain_year d -> shift_date d n = from_day (to_day d + n).
Proof.
  intros Hv Hy. pose proof Hv as [Hm Hd].
  destruct (readers_of_MakeDay _ _ _ Hm Hd) as (Hy' & Hmo & Hda).
  cbv beta zeta delta [shift_date new_Date from_day to_day setDate getDate
                       getFullYear getMonth].
  assert (((0 <=? year d) && (year d <=? 99)) = false) as ->.
  { destruct Hy; [apply andb_false_intro1 | apply andb_false_intro2]; lia. }
  rewrite Hy', Hmo, Hda, MakeDay_shift. reflexivity.
Qed.

Lemma prev_day_valid d : valid_date d -> valid_date (prev_day d).
Proof.
  intros [Hm Hd]. unfold prev_day, valid_date.
  destruct (Z.ltb_spec 1 (day d)); simpl; [lia|].
  destruct (Z.ltb_spec 1 (month d)); simpl; [|done].
  split; [lia|]. split; [|lia].
  unfold days_in_month; repeat case_match; lia.
Qed.

Lemma MakeDay_jan1 y : MakeDay y 0 1 = DayFromYear y.
Proof.
  cbv beta zeta delta [MakeDay].
  change (0 / 12) with 0. change (0 mod 12) with 0.
  rewrite !Z.add_0_r. simpl MonthStart. lia.
Qed.

Lemma MakeDay_dec31 y : MakeDay y 11 31 = DayFromYear (y + 1) - 1.
Proof.
  cbv beta zeta delta [MakeDay].
  change (11 / 12) with 0. change (11 mod 12) with 11.
  rewrite Z.add_0_r, leap_flag, DayFromYear_succ.
  pose proof (MonthStart_last y). lia.
Qed.

Lemma to_day_prev d : valid_date d -> to_day (prev_day d) = to_day d - 1.
Proof.
  intros [Hm Hd]. unfold prev_day.
  destruct (Z.ltb_spec 1 (day d)); simpl.
  { unfold to_day; simpl. cbv beta zeta delta [MakeDay]. lia. }
  assert (day d = 1) as Hd1 by lia.
  destruct (Z.ltb_spec 1 (month d)); unfold to_day; simpl.
  - rewrite !MakeDay_valid by lia. rewrite Hd1.
    rewrite (MonthStart_next (year d) (month d - 1)) by lia. lia.
  - assert (month d = 1) as -> by lia. rewrite Hd1.
    change (12 - 1) with 11. change (1 - 1) with 0.
    rewrite MakeDay_dec31, MakeDay_jan1.
    replace (year d - 1 + 1) with (year d) by lia. lia.
Qed.

Lemma shift_date_prev_day d :
  valid_date d -> plain_year d -> shift_date d (-1) = prev_day d.
Proof.
  intros Hv Hy. rewrite shift_date_day_number by done.
  replace (to_day d + -1) with (to_day d - 1) by lia.
  rewrite <- to_day_prev by done. apply from_to_day, prev_day_valid, Hv.
Qed.

Lemma days_before_valid n d : valid_date d -> valid_date (days_before n d).
Proof. intros Hv. induction n; simpl; [done | by apply prev_day_valid]. Qed.

Lemma to_day_days_before n d :
  valid_date d -> to_day (days_before n d) = to_day d - Z.of_nat n.
Proof.
  intros Hv. induction n; simpl days_before; [lia|].
  rewrite to_day_prev by by apply days_before_valid. lia.
Qed.

Lemma shift_date_days_before d (i : nat) :
  valid_date d -> plain_year d -> shift_date d (- Z.of_nat i) = days_before i d.
Proof.
  intros Hv Hy. rewrite shift_date_day_number by done.
  replace (to_day d + - Z.of_nat i) with (to_day d - Z.of_nat i) by lia.
  rewrite <- to_day_days_before by done.
  apply from_to_day, days_before_valid, Hv.
Qed.

Lemma prev_day_lt d : valid_date d -> date_lt (prev_day d) d.
Proof.
  intros [Hm Hd]. unfold prev_day, date_lt.
  destruct (Z.ltb_spec 1 (day d)); simpl; [lia|].
  destruct (Z.ltb_spec 1 (month d)); simpl; lia.
Qed.

Lemma date_lt_trans a b c : date_lt a b -> date_lt b c -> date_lt a c.
Proof. unfold date_lt. lia. Qed.

(** ** Date strings *)

Lemma split_dash_digits d rest :
  split_dash (NilEmpty.string_of_uint d ++ String "-" rest)
  = NilEmpty.string_of_uint d :: split_dash rest.
Proof.
  induction d; simpl; [done|..]; by rewrite IHd.
Qed.

Lemma split_dash_digits_end d :
  split_dash (NilEmpty.string_of_uint d) = [NilEmpty.string_of_uint d].
Proof.
  induction d; simpl; [done|..]; by rewrite IHd.
Qed.

Lemma digits_of_nonnil z : digits_of z <> Decimal.Nil.
Proof.
  destruct z as [|p|p]; simpl; [done|..]; apply Unsigned.to_uint_nonnil.
Qed.

Lemma js_String_digits z :
  0 <= z -> js_String z = NilEmpty.string_of_uint (digits_of z).
Proof.
  intros Hz. unfold js_String, digits_of.
  destruct z as [|p|p]; [done| |lia]. simpl.
  pose proof (Unsigned.to_uint_nonnil p). by destruct (Pos.to_uint p).
Qed.

Lemma of_uint_digits_of z : 0 <= z -> Z.of_uint (digits_of z) = z.
Proof.
  intros Hz. pose proof (DecimalZ.of_to z) as H. unfold digits_of.
  destruct z as [|p|p]; [done| |lia]. exact H.
Qed.

Lemma Number_digits u :
  u <> Decimal.Nil -> Number (NilEmpty.string_of_uint u) = Some (Z.of_uint u).
Proof.
  intros Hu. unfold Number. rewrite NilEmpty.usu.
  by destruct u.
Qed.

Lemma Number_js_String z : 0 <= z -> Number (js_String z) = Some z.
Proof.
  intros Hz. rewrite js_String_digits by done.
  rewrite Number_digits by apply digits_of_nonnil.
  by rewrite of_uint_digits_of.
Qed.

Lemma two_digits_ok_all : forallb two_digits_ok (seqZ 0 100) = true.
Proof. vm_compute. reflexivity. Qed.

Lemma padStart2_two_digits z :
  0 <= z <= 99 ->
  padStart2 (js_String z) = NilEmpty.string_of_uint (two_digits z)
  /\ String.length (padStart2 (js_String z)) = 2%nat
  /\ Z.of_uint (two_digits z) = z.
Proof.
  intros Hz. pose proof two_digits_ok_all as Hall.
  rewrite forallb_forall in Hall. specialize (Hall z).
  unfold two_digits_ok in Hall.
  rewrite !andb_true_iff, String.eqb_eq, Nat.eqb_eq, Z.eqb_eq in Hall.
  destruct Hall as [[H1 H2] H3]; [|done].
  apply list_elem_of_In, elem_of_seqZ. lia.
Qed.

Lemma two_digits_nonnil z : two_digits z <> Decimal.Nil.
Proof. unfold two_digits. destruct (z <? 10); [done|apply digits_of_nonnil]. Qed.

Lemma print_date_digits dt :
  0 <= year dt -> 0 <= month dt <= 99 -> 0 <= day dt <= 99 ->
  print_date dt
  = (NilEmpty.string_of_uint (digits_of (year dt))
       ++ String "-" (NilEmpty.string_of_uint (two_digits (month dt))
       ++ String "-" (NilEmpty.string_of_uint (two_digits (day dt)))))%string.
Proof.
  intros Hy Hm Hd. unfold print_date.
  rewrite js_String_digits by done.
  destruct (padStart2_two_digits _ Hm) as (-> & _).
  destruct (padStart2_two_digits _ Hd) as (-> & _).
  reflexivity.
Qed.

(** Reading back what the template literal prints. *)
Lemma read_print_date dt :
  0 <= year dt -> 0 <= month dt <= 99 -> 0 <= day dt <= 99 ->
  read_date (print_date dt) = Some dt.
Proof.
  intros Hy Hm Hd. rewrite print_date_digits by done.
  unfold read_date. rewrite !split_dash_digits, split_dash_digits_end.
  cbn [map].
  rewrite !Number_digits by (apply digits_of_nonnil || apply two_digits_nonnil).
  rewrite of_uint_digits_of by done.
  destruct (padStart2_two_digits _ Hm) as (_ & _ & ->).
  destruct (padStart2_two_digits _ Hd) as (_ & _ & ->).
  by destruct dt.
Qed.

Lemma valid_date_fields dt : valid_date dt -> 0 <= month dt <= 99 /\ 0 <= day dt <= 99.
Proof.
  intros [Hm Hd]. split; [lia|].
  assert (days_in_month (year dt) (month dt) <= 31); [|lia].
  unfold days_in_month. repeat case_match; lia.
Qed.

(** *** The template literal is injective on valid dates *)

Lemma string_app_length (a b : string) :
  String.length (a ++ b)%string = (String.length a + String.length b)%nat.
Proof. induction a as [|c a IH]; simpl; [done|by rewrite IH]. Qed.

Lemma string_app_inj_suffix (a c b d : string) :
  (a ++ b = c ++ d)%string -> String.length b = String.length d -> a = c /\ b = d.
Proof.
  revert c. induction a as [|x a IH]; intros [|y c] Heq Hlen; simpl in *.
  - done.
  - apply (f_equal String.length) in Heq.
    rewrite !string_app_length in Heq. simpl in Heq. lia.
  - apply (f_equal String.length) in Heq.
    rewrite !string_app_length in Heq. simpl in Heq. lia.
  - injection Heq as -> Heq. destruct (IH c Heq Hlen) as [-> ->]. done.
Qed.

Lemma js_String_inj z1 z2 : js_String z1 = js_String z2 -> z1 = z2.
Proof.
  unfold js_String. intros Heq. apply DecimalZ.to_int_inj.
  assert (forall z, Z.to_int z <> Decimal.Pos Decimal.Nil
                    /\ Z.to_int z <> Decimal.Neg Decimal.Nil) as Hnn.
  { intros [|p|p]; simpl; split; try done; intros [= H];
      by apply Unsigned.to_uint_nonnil in H. }
  apply (f_equal NilZero.int_of_string) in Heq.
  rewrite !NilZero.isi in Heq by apply Hnn. by injection Heq.
Qed.

Lemma print_date_inj d1 d2 :
  valid_date d1 -> valid_date d2 -> print_date d1 = print_date d2 -> d1 = d2.
Proof.
  intros Hv1 Hv2 Heq.
  destruct (valid_date_fields d1 Hv1) as [Hm1 Hd1].
  destruct (valid_date_fields d2 Hv2) as [Hm2 Hd2].
  destruct (padStart2_two_digits _ Hm1) as (Em1 & Lm1 & Vm1).
  destruct (padStart2_two_digits _ Hd1) as (Ed1 & Ld1 & Vd1).
  destruct (padStart2_two_digits _ Hm2) as (Em2 & Lm2 & Vm2).
  destruct (padStart2_two_digits _ Hd2) as (Ed2 & Ld2 & Vd2).
  unfold print_date in Heq.
  apply string_app_inj_suffix in Heq as [Hy Hrest];
    [|by rewrite !string_app_length, Lm1, Ld1, Lm2, Ld2].
  apply (string_app_inj_suffix "-" "-") in Hrest as [_ Hrest];
    [|by rewrite !string_app_length, Lm1, Ld1, Lm2, Ld2].
  apply string_app_inj_suffix in Hrest as [Hm Hrest];
    [|by rewrite !string_app_length, Ld1, Ld2].
  apply (string_app_inj_suffix "-" "-") in Hrest as [_ Hd]; [|by rewrite Ld1, Ld2].
  apply js_String_inj in Hy.
  rewrite Em1, Em2 in Hm. rewrite Ed1, Ed2 in Hd.
  apply (f_equal NilEmpty.uint_of_string) in Hm, Hd.
  rewrite !NilEmpty.usu in Hm, Hd. injection Hm as Hm. injection Hd as Hd.
  destruct d1, d2; simpl in *. f_equal; congruence.
Qed.

(** *** [addDays] on the strings it prints *)

Lemma addDays_print_date d n :
  valid_date d -> 0 <= year d ->
  addDays (print_date d) n = print_date (shift_date d n).
Proof.
  intros Hv Hy. destruct (valid_date_fields d Hv) as [Hm Hd].
  unfold addDays. by rewrite read_print_date.
Qed.

Lemma addDays_prev_day d :
  valid_date d -> 100 <= year d ->
  addDays (print_date d) (-1) = print_date (prev_day d).
Proof.
  intros Hv Hy. rewrite addDays_print_date by (done || lia).
  rewrite shift_date_prev_day; [done|done|]. right. lia.
Qed.

Lemma addDays_days_before d (i : nat) :
  valid_date d -> 100 <= year d ->
  addDays (print_date d) (- Z.of_nat i) = print_date (days_before i d).
Proof.
  intros Hv Hy. rewrite addDays_print_date by (done || lia).
  rewrite shift_date_days_before; [done|done|]. right. lia.
Qed.

(** ** Numbers *)

Lemma Qsgn_pos y : (0 < y)%Q -> Qsgn y = Gt.
Proof. intros H. unfold Qsgn. by apply Qgt_alt. Qed.

Lemma num_div_pos x y : (0 < y)%Q -> num_div (Fin x) (Fin y) = Fin (x / y).
Proof. intros H. simpl. by rewrite Qsgn_pos. Qed.

Lemma num_lt_Fin x y : num_lt (Fin x) (Fin y) = Qlt_bool x y.
Proof. reflexivity. Qed.

Lemma Qlt_bool_iff x y : Qlt_bool x y = true <-> (x < y)%Q.
Proof.
  unfold Qlt_bool. rewrite Qlt_alt. destruct (x ?= y)%Q; split; congruence.
Qed.

Lemma Qlt_bool_false x y : Qlt_bool x y = false <-> (y <= x)%Q.
Proof.
  rewrite <- not_true_iff_false, Qlt_bool_iff. split; [apply Qnot_lt_le | apply Qle_not_lt].
Qed.

Lemma inject_Z_le a b : (inject_Z a <= inject_Z b)%Q <-> a <= b.
Proof. by rewrite <- Zle_Qle. Qed.

Lemma inject_Z_lt a b : (inject_Z a < inject_Z b)%Q <-> a < b.
Proof. by rewrite <- Zlt_Qlt. Qed.

Lemma Math_min_of_Z a b : Math_min (of_Z a) (of_Z b) = of_Z (Z.min a b).
Proof.
  unfold of_Z. simpl. change (match (inject_Z b ?= inject_Z a)%Q with Lt => true | _ => false end)
    with (Qlt_bool (inject_Z b) (inject_Z a)).
  destruct (Qlt_bool (inject_Z b) (inject_Z a)) eqn:E.
  - apply Qlt_bool_iff in E. apply (proj1 (inject_Z_lt _ _)) in E. by rewrite Z.min_r by lia.
  - apply Qlt_bool_false in E. apply (proj1 (inject_Z_le _ _)) in E. by rewrite Z.min_l by lia.
Qed.

Lemma Qfloor_half z : Qfloor (inject_Z z + (1 # 2)) = z.
Proof.
  pose proof (Qfloor_le (inject_Z z + (1 # 2))) as Hlo.
  pose proof (Qlt_floor (inject_Z z + (1 # 2))) as Hhi.
  set (f := Qfloor (inject_Z z + (1 # 2))) in *.
  unfold Qle, Qlt, Qplus, inject_Z in *. simpl in *. lia.
Qed.

(** Rounding keeps a value between two integers between them. *)
Lemma round_between lo hi x :
  (inject_Z lo <= x)%Q -> (x <= inject_Z hi)%Q ->
  lo <= Qfloor (x + (1 # 2)) <= hi.
Proof.
  intros Hlo Hhi. split.
  - rewrite <- (Qfloor_Z lo). apply Qfloor_resp_le. lra.
  - rewrite <- (Qfloor_half hi). apply Qfloor_resp_le. lra.
Qed.

Lemma round_nonneg x : (0 <= x)%Q -> 0 <= Qfloor (x + (1 # 2)).
Proof.
  intros H. rewrite <- (Qfloor_Z 0). apply Qfloor_resp_le. change (inject_Z 0) with 0%Q. lra.
Qed.

Lemma capped_points cap x :
  0 <= cap -> (0 <= x)%Q ->
  exists k, Math_min (of_Z cap) (Math_round (Fin x)) = of_Z k /\ 0 <= k <= cap.
Proof.
  intros Hcap Hx.
  change (Math_round (Fin x)) with (of_Z (Qfloor (x + (1 # 2)))).
  rewrite Math_min_of_Z.
  eexists; split; [reflexivity|]. pose proof (round_nonneg x Hx). lia.
Qed.

(** ** The streak walk *)

Lemma truthy_hours_of v : truthy v = true -> exists a, hours_of v = Ok a.
Proof. destruct v as [[| | |]|]; simpl; try discriminate; eauto. Qed.

Lemma streak_loop_step fuel byDate d s :
  streak_loop (S fuel) byDate d s =
  if is_active (lookup_day byDate d)
  then streak_loop fuel byDate (addDays d (-1)) (s + 1)
  else Some (Ok s).
Proof.
  simpl. unfold is_active.
  destruct (truthy (lookup_day byDate d)) eqn:Ht; [|done].
  destruct (truthy_hours_of _ Ht) as [a ->]. simpl.
  by destruct (js_strict_eq a js_zero).
Qed.

Lemma streak_loop_ext fuel b1 b2 d s :
  (forall x, is_active (lookup_day b1 x) = is_active (lookup_day b2 x)) ->
  streak_loop fuel b1 d s = streak_loop fuel b2 d s.
Proof.
  intros Hext. revert d s.
  induction fuel as [|fuel IH]; intros d s; [done|].
  rewrite !streak_loop_step, Hext, IH. done.
Qed.

Lemma days_before_prev n d : days_before n (prev_day d) = prev_day (days_before n d).
Proof. induction n; simpl; congruence. Qed.

Lemma streak_loop_run byDate (n : nat) : forall fuel d s,
  valid_date d ->
  (forall k, (k < n)%nat -> 100 <= year (days_before k d)) ->
  (forall k, (k < n)%nat ->
     is_active (lookup_day byDate (print_date (days_before k d))) = true) ->
  is_active (lookup_day byDate (print_date (days_before n d))) = false ->
  (n < fuel)%nat ->
  streak_loop fuel byDate (print_date d) s = Some (Ok (s + Z.of_nat n)).
Proof.
  induction n as [|n IH]; intros fuel d s Hv Hy Hact Hstop Hfuel.
  - destruct fuel as [|fuel]; [lia|].
    rewrite streak_loop_step. simpl in Hstop. rewrite Hstop.
    do 2 f_equal. lia.
  - destruct fuel as [|fuel]; [lia|].
    rewrite streak_loop_step.
    pose proof (Hact 0%nat ltac:(lia)) as H0. simpl in H0. rewrite H0.
    pose proof (Hy 0%nat ltac:(lia)) as Hy0. simpl in Hy0.
    rewrite addDays_prev_day by done.
    rewrite (IH fuel (prev_day d) (s + 1)).
    + do 2 f_equal. lia.
    + by apply prev_day_valid.
    + intros k Hk. rewrite days_before_prev. apply (Hy (S k)). lia.
    + intros k Hk. rewrite days_before_prev. apply (Hact (S k)). lia.
    + rewrite days_before_prev. exact Hstop.
    + lia.
Qed.

Lemma below_all_or_some (p : nat -> bool) (m : nat) :
  (forall k, (k < m)%nat -> p k = true) \/ (exists k, (k < m)%nat /\ p k = false).
Proof.
  induction m as [|m [IH|(k & Hk & Hpk)]].
  - left. intros k Hk. lia.
  - destruct (p m) eqn:Hpm.
    + left. intros k Hk. destruct (decide (k = m)) as [->|]; [done|]. apply IH. lia.
    + right. exists m. split; [lia|done].
  - right. exists k. split; [lia|done].
Qed.

(** Least index at which a boolean sequence is false. *)
Lemma first_false (p : nat -> bool) (m : nat) :
  p m = false ->
  exists n, (n <= m)%nat /\ p n = false /\ forall k, (k < n)%nat -> p k = true.
Proof.
  induction m as [m IH] using lt_wf_ind. intros Hm.
  destruct (below_all_or_some p m) as [Hall|(k & Hk & Hpk)].
  - exists m. split; [lia|done].
  - destruct (IH k Hk Hpk) as (n & Hn & Hpn & Hlt). exists n. split; [lia|done].
Qed.

Lemma days_before_inj d (i j : nat) :
  valid_date d -> days_before i d = days_before j d -> i = j.
Proof.
  intros Hv Heq. apply (f_equal to_day) in Heq.
  rewrite !to_day_days_before in Heq by done. lia.
Qed.

Lemma days_before_NoDup d (n : nat) :
  valid_date d -> NoDup ((fun k => print_date (days_before k d)) <$> seq 0 n).
Proof.
  intros Hv. apply NoDup_fmap_2_strong; [|apply NoDup_seq].
  intros i j _ _ Heq. apply (days_before_inj d); [done|].
  apply print_date_inj; [by apply days_before_valid..|done].
Qed.

(** A walk of consecutive days leaves a finite log within [size] steps. *)
Lemma walk_leaves_log (byDate : gmap string jsval) d :
  valid_date d ->
  exists k, (k <= size byDate)%nat
    /\ byDate !! print_date (days_before k d) = None.
Proof.
  intros Hv.
  set (p := fun k => bool_decide (is_Some (byDate !! print_date (days_before k d)))).
  destruct (below_all_or_some p (S (size byDate))) as [Hall|(k & Hk & Hpk)].
  - exfalso.
    set (ds := (fun k => print_date (days_before k d)) <$> seq 0 (S (size byDate))).
    assert (Hsub : ds ⊆+ elements (dom byDate)).
    { apply NoDup_submseteq; [by apply days_before_NoDup|].
      intros x Hx. apply elem_of_elements, elem_of_dom.
      apply list_elem_of_fmap in Hx as (k & -> & Hk).
      apply elem_of_seq in Hk.
      specialize (Hall k ltac:(lia)). unfold p in Hall.
      by apply bool_decide_eq_true in Hall. }
    apply submseteq_length in Hsub.
    unfold ds in Hsub. rewrite length_fmap, length_seq in Hsub.
    change (length (elements (dom byDate))) with (size (dom byDate)) in Hsub.
    rewrite size_dom in Hsub. lia.
  - exists k. split; [lia|]. unfold p in Hpk.
    apply bool_decide_eq_false in Hpk. by apply eq_None_not_Some.
Qed.

Lemma is_active_lookup byDate d :
  is_active (lookup_day byDate d) = true -> is_Some (byDate !! d).
Proof.
  unfold lookup_day. destruct (byDate !! d); [eauto|]. simpl. discriminate.
Qed.

Lemma lookup_day_None byDate d :
  byDate !! d = None -> lookup_day byDate d = Prim JUndefined.
Proof. unfold lookup_day. by intros ->. Qed.

Lemma prev_day_year d : year d - 1 <= year (prev_day d) <= year d.
Proof. unfold prev_day. repeat case_match; simpl; lia. Qed.

Lemma days_before_year n d :
  year d - Z.of_nat n <= year (days_before n d) <= year d.
Proof.
  induction n; simpl days_before; [lia|].
  pose proof (prev_day_year (days_before n d)). lia.
Qed.

Lemma days_before_le n d : valid_date d -> date_le (days_before n d) d.
Proof.
  intros Hv. induction n; simpl; [by left|].
  right. destruct IHn as [Heq|Hlt].
  - rewrite Heq. by apply prev_day_lt.
  - eapply date_lt_trans; [|exact Hlt]. by apply prev_day_lt, days_before_valid.
Qed.

(** A date whose string is a key of a log of ISO keys is an ISO date. *)
Lemma iso_keys_date byDate d :
  iso_keys byDate -> valid_date d -> is_Some (byDate !! print_date d) -> iso_date d.
Proof.
  intros Hkeys Hv [v Hlook].
  destruct (Hkeys _ _ Hlook) as (d' & Hiso & Heq).
  assert (d = d') as ->; [|done].
  apply print_date_inj; [done|apply Hiso|done].
Qed.

(** The streak is the length of the run of active days that ends at the
    starting day. *)
Lemma streak_loop_terminates byDate d :
  valid_date d -> iso_keys byDate ->
  exists n : nat,
    (n <= size byDate)%nat
    /\ (forall k, (k < n)%nat ->
          is_active (lookup_day byDate (print_date (days_before k d))) = true)
    /\ is_active (lookup_day byDate (print_date (days_before n d))) = false
    /\ forall fuel s, (n < fuel)%nat ->
         streak_loop fuel byDate (print_date d) s = Some (Ok (s + Z.of_nat n)).
Proof.
  intros Hv Hkeys.
  destruct (walk_leaves_log byDate d Hv) as (m & Hm & Hnone).
  destruct (first_false
              (fun k => is_active (lookup_day byDate (print_date (days_before k d)))) m)
    as (n & Hn & Hstop & Hact).
  { by rewrite (lookup_day_None _ _ Hnone). }
  exists n. split; [lia|]. split; [done|]. split; [done|].
  intros fuel s Hfuel. apply streak_loop_run; try done.
  intros k Hk.
  destruct (iso_keys_date byDate (days_before k d) Hkeys) as [Hyear _].
  - by apply days_before_valid.
  - by apply is_active_lookup, Hact.
  - lia.
Qed.

(** ** The window loops *)

Section for_each.
Context {A B : Type}.
Implicit Types (body : B -> A -> result B) (l : list A) (acc : B).

Lemma for_each_ext body1 body2 l acc :
  (forall b x, x ∈ l -> body1 b x = body2 b x) ->
  for_each body1 l acc = for_each body2 l acc.
Proof.
  revert acc. induction l as [|x l IH]; intros acc Hext; [done|].
  simpl. rewrite Hext by left.
  destruct (body2 acc x); simpl; [|done].
  apply IH. intros b y Hy. apply Hext. by right.
Qed.

Lemma for_each_fmap {A'} (g : A' -> A) body (l : list A') acc :
  for_each body (map g l) acc = for_each (fun b x => body b (g x)) l acc.
Proof.
  revert acc. induction l as [|x l IH]; intros acc; [done|].
  simpl. destruct (body acc (g x)); simpl; [apply IH|done].
Qed.

(** An invariant indexed by the number of iterations done. *)
Lemma for_each_count (P : nat -> B -> Prop) body l (k : nat) acc :
  P k acc ->
  (forall n b x, x ∈ l -> P n b -> exists b', body b x = Ok b' /\ P (S n) b') ->
  exists r, for_each body l acc = Ok r /\ P (k + length l)%nat r.
Proof.
  revert k acc. induction l as [|x l IH]; intros k acc Hacc Hstep.
  - exists acc. simpl. by rewrite Nat.add_0_r.
  - destruct (Hstep k acc x) as (b' & Hb & Hb'); [by left|done|].
    simpl. rewrite Hb. simpl.
    destruct (IH (S k) b' Hb') as (r & Hr & HP).
    { intros n b y Hy. apply Hstep. by right. }
    exists r. split; [done|]. by rewrite Nat.add_succ_r.
Qed.

Lemma for_each_inv (P : B -> Prop) body l acc :
  P acc ->
  (forall b x, x ∈ l -> P b -> exists b', body b x = Ok b' /\ P b') ->
  exists r, for_each body l acc = Ok r /\ P r.
Proof.
  intros Hacc Hstep.
  destruct (for_each_count (fun _ => P) body l 0 acc Hacc) as (r & Hr & HP); eauto.
Qed.
End for_each.

Lemma lookup_day_usage byDate d :
  usage_log byDate ->
  lookup_day byDate d = Prim JUndefined \/ day_record (lookup_day byDate d) = true.
Proof.
  intros Hlog. unfold lookup_day. destruct (byDate !! d) as [v|] eqn:E; [|by left].
  right. exact (Hlog _ _ E).
Qed.

Lemma lookup_day_json byDate d :
  json_log byDate -> json_val (lookup_day byDate d) = true.
Proof.
  intros Hlog. unfold lookup_day. destruct (byDate !! d) as [v|] eqn:E; [|done].
  exact (Hlog _ _ E).
Qed.

(** *** What one day adds *)

Lemma nonneg_num_Fin n : nonneg_num n = true -> exists q, n = Fin q /\ (0 <= q)%Q.
Proof.
  destruct n as [| | |q]; simpl; try discriminate.
  intros H. exists q. split; [done|]. by apply Qle_bool_iff.
Qed.

Lemma nonneg_num_intro q : (0 <= q)%Q -> nonneg_num (Fin q) = true.
Proof. intros H. by apply Qle_bool_iff. Qed.

Lemma nonneg_num_add a b :
  nonneg_num a = true -> nonneg_num b = true -> nonneg_num (num_add a b) = true.
Proof.
  intros (x & -> & Hx)%nonneg_num_Fin (y & -> & Hy)%nonneg_num_Fin.
  apply nonneg_num_intro. lra.
Qed.

Lemma is_finite_add a b :
  is_finite a = true -> is_finite b = true -> is_finite (num_add a b) = true.
Proof. by destruct a, b. Qed.

Lemma nonneg_or_zero p :
  hours_field p = true -> nonneg_num (ToNumber (js_or p js_zero)) = true.
Proof.
  destruct p as [| | |n]; simpl; try discriminate; [done|].
  intros Hn. unfold js_or. destruct (truthy_prim (JNum n)); [done|]. done.
Qed.

Lemma finite_or_zero p :
  json_prim p = true -> is_finite (ToNumber (js_or p js_zero)) = true.
Proof.
  destruct p as [| |[]|n]; simpl; try done.
  intros Hn. unfold js_or. by destruct (truthy_prim (JNum n)).
Qed.

Lemma truthy_parts v :
  truthy v = true ->
  exists m s h, main_of v = Ok m /\ sub_of v = Ok s /\ hours_of v = Ok h.
Proof.
  destruct v as [[| | |]|]; simpl; try discriminate;
    intros _; do 3 eexists; repeat split; reflexivity.
Qed.

Lemma day_record_nonneg v :
  day_record v = true ->
  exists m s h, main_of v = Ok m /\ sub_of v = Ok s /\ hours_of v = Ok h
    /\ nonneg_num (ToNumber m) = true /\ nonneg_num (ToNumber s) = true
    /\ nonneg_num (ToNumber h) = true.
Proof.
  destruct v as [[| | |n]|m s]; simpl; try discriminate.
  - intros Hn. do 3 eexists. repeat split; try reflexivity; try done;
      apply (nonneg_or_zero (JNum n)), Hn.
  - intros [Hm Hs]%andb_prop. do 3 eexists. repeat split; try reflexivity.
    + by apply nonneg_or_zero.
    + by apply nonneg_or_zero.
    + simpl. apply nonneg_num_add; by apply nonneg_or_zero.
Qed.

Lemma json_val_finite v :
  json_val v = true -> truthy v = true ->
  exists m s h, main_of v = Ok m /\ sub_of v = Ok s /\ hours_of v = Ok h
    /\ is_finite (ToNumber m) = true /\ is_finite (ToNumber s) = true
    /\ is_finite (ToNumber h) = true.
Proof.
  destruct v as [[| |b|n]|m s]; simpl; try discriminate.
  - intros _ ->. do 3 eexists. repeat split; reflexivity.
  - intros Hn _. do 3 eexists. repeat split; try reflexivity;
      apply (finite_or_zero (JNum n)), Hn.
  - intros [Hm Hs]%andb_prop _. do 3 eexists. repeat split; try reflexivity.
    + by apply finite_or_zero.
    + by apply finite_or_zero.
    + simpl. apply is_finite_add; by apply finite_or_zero.
Qed.

Lemma consistency_day_step v active :
  exists a, consistency_day v active = Ok a /\ active <= a <= active + 1.
Proof.
  unfold consistency_day. destruct (truthy v) eqn:Ht; simpl.
  - destruct (truthy_parts v Ht) as (m & s & h & _ & _ & ->). simpl.
    destruct (js_greater h js_zero); eexists; (split; [reflexivity|lia]).
  - exists active. split; [done|lia].
Qed.

Lemma ghost_day_step v ghost active :
  exists g a, ghost_day v (ghost, active) = Ok (g, a)
    /\ ghost <= g /\ active <= a <= active + 1 /\ g - ghost <= a - active.
Proof.
  unfold ghost_day. destruct (truthy v) eqn:Ht; simpl.
  - destruct (truthy_parts v Ht) as (m & s & h & -> & -> & _). simpl.
    destruct (js_greater m js_zero || js_greater s js_zero);
      [destruct (js_strict_eq m js_zero && js_greater s js_zero)|];
      do 2 eexists; (split; [reflexivity|lia]).
  - exists ghost, active. split; [done|lia].
Qed.

Lemma autonomy_day_total v acc : exists acc', autonomy_day v acc = Ok acc'.
Proof.
  destruct acc as [main sub]. unfold autonomy_day.
  destruct (truthy v) eqn:Ht; simpl; [|eauto].
  destruct (truthy_parts v Ht) as (m & s & h & -> & -> & _). simpl. eauto.
Qed.

Lemma volume_day_total v total : exists t, volume_day v total = Ok t.
Proof.
  unfold volume_day. destruct (truthy v) eqn:Ht; simpl; [|eauto].
  destruct (truthy_parts v Ht) as (m & s & h & _ & _ & ->). simpl. eauto.
Qed.

Lemma autonomy_day_nonneg v main sub :
  v = Prim JUndefined \/ day_record v = true ->
  nonneg_num main = true -> nonneg_num sub = true ->
  exists m s, autonomy_day v (main, sub) = Ok (m, s)
    /\ nonneg_num m = true /\ nonneg_num s = true.
Proof.
  intros [->|Hv] Hm Hs; [by exists main, sub|].
  unfold autonomy_day. destruct (truthy v); simpl; [|by exists main, sub].
  destruct (day_record_nonneg v Hv) as (m & s & h & -> & -> & _ & Hm' & Hs' & _).
  simpl. do 2 eexists. split; [reflexivity|].
  split; by apply nonneg_num_add.
Qed.

Lemma volume_day_nonneg v total :
  v = Prim JUndefined \/ day_record v = true ->
  nonneg_num total = true ->
  exists t, volume_day v total = Ok t /\ nonneg_num t = true.
Proof.
  intros [->|Hv] Ht; [by exists total|].
  unfold volume_day. destruct (truthy v); simpl; [|by exists total].
  destruct (day_record_nonneg v Hv) as (m & s & h & _ & _ & -> & _ & _ & Hh).
  simpl. eexists. split; [reflexivity|]. by apply nonneg_num_add.
Qed.

Lemma autonomy_day_finite v main sub :
  json_val v = true ->
  is_finite main = true -> is_finite sub = true ->
  exists m s, autonomy_day v (main, sub) = Ok (m, s)
    /\ is_finite m = true /\ is_finite s = true.
Proof.
  intros Hv Hm Hs.
  unfold autonomy_day. destruct (truthy v) eqn:Ht; simpl; [|by exists main, sub].
  destruct (json_val_finite v Hv Ht) as (m & s & h & -> & -> & _ & Hm' & Hs' & _).
  simpl. do 2 eexists. split; [reflexivity|].
  split; by apply is_finite_add.
Qed.

Lemma volume_day_finite v total :
  json_val v = true -> is_finite total = true ->
  exists t, volume_day v total = Ok t /\ is_finite t = true.
Proof.
  intros Hv Hfin.
  unfold volume_day. destruct (truthy v) eqn:Ht; simpl; [|by exists total].
  destruct (json_val_finite v Hv Ht) as (m & s & h & _ & _ & -> & _ & _ & Hh).
  simpl. eexists. split; [reflexivity|]. by apply is_finite_add.
Qed.

(** *** What a window adds up to *)

Lemma consistency_loop byDate today (w : nat) :
  exists a, for_window w (consistency_body byDate today) 0 = Ok a
    /\ 0 <= a <= Z.of_nat w.
Proof.
  destruct (for_each_count (fun n a => 0 <= a <= Z.of_nat n)
              (consistency_body byDate today) (seq 0 w) 0 0) as (a & Ha & Hr).
  - simpl. lia.
  - intros n b i _ Hb. unfold consistency_body.
    destruct (consistency_day_step (lookup_day byDate (addDays today (- Z.of_nat i))) b)
      as (a & -> & Ha).
    exists a. split; [done|lia].
  - exists a. rewrite length_seq in Hr. split; [done|lia].
Qed.

Lemma ghost_loop byDate today (w : nat) :
  exists g a, for_window w (ghost_body byDate today) (0, 0) = Ok (g, a)
    /\ 0 <= g <= a /\ a <= Z.of_nat w.
Proof.
  destruct (for_each_count (fun n (p : Z * Z) => 0 <= p.1 <= p.2 /\ p.2 <= Z.of_nat n)
              (ghost_body byDate today) (seq 0 w) 0 (0, 0)) as ([g a] & Ha & Hr).
  - simpl. lia.
  - intros n [g a] i _ Hb. unfold ghost_body. simpl in Hb.
    destruct (ghost_day_step (lookup_day byDate (addDays today (- Z.of_nat i))) g a)
      as (g' & a' & -> & Hg).
    exists (g', a'). split; [done|]. simpl. lia.
  - exists g, a. rewrite length_seq in Hr. simpl in Hr. split; [done|lia].
Qed.

Lemma autonomy_loop byDate today (w : nat) :
  exists m s, for_window w (autonomy_body byDate today) (of_Z 0, of_Z 0) = Ok (m, s)
    /\ (usage_log byDate -> nonneg_num m = true /\ nonneg_num s = true)
    /\ (json_log byDate -> is_finite m = true /\ is_finite s = true).
Proof.
  destruct (for_each_inv
              (fun p : num * num =>
                 (usage_log byDate -> nonneg_num p.1 = true /\ nonneg_num p.2 = true)
                 /\ (json_log byDate -> is_finite p.1 = true /\ is_finite p.2 = true))
              (autonomy_body byDate today) (seq 0 w) (of_Z 0, of_Z 0))
    as ([m s] & Hr & HP).
  - done.
  - intros [m s] i _ [Hu Hj]. unfold autonomy_body. simpl in Hu, Hj.
    set (v := lookup_day byDate (addDays today (- Z.of_nat i))).
    destruct (autonomy_day_total v (m, s)) as ([m' s'] & Hday).
    exists (m', s'). split; [done|]. simpl. split.
    + intros Hlog. destruct (Hu Hlog) as [Hm Hs].
      destruct (autonomy_day_nonneg v m s (lookup_day_usage _ _ Hlog) Hm Hs)
        as (m2 & s2 & Hday2 & Hn).
      rewrite Hday in Hday2. by injection Hday2 as -> ->.
    + intros Hlog. destruct (Hj Hlog) as [Hm Hs].
      destruct (autonomy_day_finite v m s (lookup_day_json _ _ Hlog) Hm Hs)
        as (m2 & s2 & Hday2 & Hn).
      rewrite Hday in Hday2. by injection Hday2 as -> ->.
  - by exists m, s.
Qed.

Lemma volume_loop byDate today (w : nat) :
  exists t, for_window w (volume_body byDate today) (of_Z 0) = Ok t
    /\ (usage_log byDate -> nonneg_num t = true)
    /\ (json_log byDate -> is_finite t = true).
Proof.
  destruct (for_each_inv
              (fun t : num =>
                 (usage_log byDate -> nonneg_num t = true)
                 /\ (json_log byDate -> is_finite t = true))
              (volume_body byDate today) (seq 0 w) (of_Z 0))
    as (t & Hr & HP).
  - done.
  - intros t i _ [Hu Hj]. unfold volume_body.
    set (v := lookup_day byDate (addDays today (- Z.of_nat i))).
    destruct (volume_day_total v t) as (t' & Hday).
    exists t'. split; [done|]. split.
    + intros Hlog.
      destruct (volume_day_nonneg v t (lookup_day_usage _ _ Hlog) (Hu Hlog))
        as (t2 & Hday2 & Hn).
      rewrite Hday in Hday2. by injection Hday2 as ->.
    + intros Hlog.
      destruct (volume_day_finite v t (lookup_day_json _ _ Hlog) (Hj Hlog))
        as (t2 & Hday2 & Hn).
      rewrite Hday in Hday2. by injection Hday2 as ->.
  - by exists t.
Qed.

(** *** From the aggregates to the points *)

Lemma num_gt_zero q : num_gt (Fin q) (of_Z 0) = Qlt_bool 0 q.
Proof. reflexivity. Qed.

Lemma of_Z_pos z : 0 < z -> (0 < inject_Z z)%Q.
Proof. intros H. by apply (proj2 (inject_Z_lt 0 z)). Qed.

Lemma of_Z_nonneg z : 0 <= z -> (0 <= inject_Z z)%Q.
Proof. intros H. by apply (proj2 (inject_Z_le 0 z)). Qed.

Lemma Qdiv_nonneg x y : (0 <= x)%Q -> (0 < y)%Q -> (0 <= x / y)%Q.
Proof. intros Hx Hy. apply Qle_shift_div_l; [done|]. lra. Qed.

Lemma points_of_finite cap x c :
  exists k, Math_min (of_Z cap) (Math_round (num_mul (Fin x) (Fin c))) = of_Z k.
Proof.
  change (Math_round (num_mul (Fin x) (Fin c)))
    with (of_Z (Qfloor (x * c + (1 # 2)))).
  rewrite Math_min_of_Z. eauto.
Qed.

Lemma points_of_nonneg cap x c :
  0 <= cap -> (0 <= x)%Q -> (0 <= c)%Q ->
  exists k, Math_min (of_Z cap) (Math_round (num_mul (Fin x) (Fin c))) = of_Z k
    /\ 0 <= k <= cap.
Proof.
  intros Hcap Hx Hc. apply capped_points; [done|]. by apply Qmult_le_0_compat.
Qed.

Lemma consistency_points a (w : nat) :
  (0 < w)%nat -> 0 <= a <= Z.of_nat w ->
  exists k, Math_round (num_mul (num_div (of_Z a) (of_nat w)) (of_Z 30)) = of_Z k
    /\ 0 <= k <= 30.
Proof.
  intros Hw Ha. unfold of_nat, of_Z.
  assert (Hwq : (0 < inject_Z (Z.of_nat w))%Q) by (apply of_Z_pos; lia).
  rewrite num_div_pos by done.
  eexists. split; [reflexivity|].
  apply round_between.
  - change (inject_Z 0) with 0%Q. change (inject_Z 30) with 30%Q.
    pose proof (Qdiv_nonneg (inject_Z a) _ (of_Z_nonneg a ltac:(lia)) Hwq). lra.
  - change (inject_Z 30) with 30%Q.
    assert (inject_Z a / inject_Z (Z.of_nat w) <= 1)%Q.
    { apply Qle_shift_div_r; [done|]. rewrite Qmult_1_l. apply inject_Z_le. lia. }
    lra.
Qed.

(** With the default window the points are the number of active days. *)
Lemma consistency_points_30 a :
  Math_round (num_mul (num_div (of_Z a) (of_nat 30)) (of_Z 30)) = of_Z a.
Proof.
  unfold of_nat, of_Z. rewrite num_div_pos by done.
  change (Math_round (num_mul (Fin (inject_Z a / inject_Z (Z.of_nat 30))) (Fin (inject_Z 30))))
    with (of_Z (Qfloor (inject_Z a / inject_Z (Z.of_nat 30) * inject_Z 30 + (1 # 2)))).
  unfold of_Z. do 2 f_equal. rewrite <- (Qfloor_half a) at 2.
  apply Qfloor_comp. change (inject_Z (Z.of_nat 30)) with 30%Q.
  change (inject_Z 30) with 30%Q. field.
Qed.

Lemma autonomy_ratio_nonneg m s :
  nonneg_num m = true -> nonneg_num s = true ->
  exists q, autonomy_ratio m s = Fin q /\ (0 <= q)%Q.
Proof.
  intros (x & -> & Hx)%nonneg_num_Fin (y & -> & Hy)%nonneg_num_Fin.
  unfold autonomy_ratio. rewrite !num_gt_zero.
  destruct (Qlt_bool 0 x) eqn:Ex.
  - apply Qlt_bool_iff in Ex. rewrite num_div_pos by done.
    eexists. split; [reflexivity|]. by apply Qdiv_nonneg.
  - destruct (Qlt_bool 0 y); eexists; (split; [reflexivity|done]).
Qed.

Lemma autonomy_ratio_finite m s :
  is_finite m = true -> is_finite s = true ->
  exists q, autonomy_ratio m s = Fin q.
Proof.
  destruct m as [| | |x], s as [| | |y]; try discriminate. intros _ _.
  unfold autonomy_ratio. rewrite !num_gt_zero.
  destruct (Qlt_bool 0 x) eqn:Ex.
  - apply Qlt_bool_iff in Ex. rewrite num_div_pos by done. eauto.
  - destruct (Qlt_bool 0 y); eauto.
Qed.

Lemma ghost_pct_nonneg g a :
  0 <= g <= a ->
  exists q, (if num_gt (of_Z a) (of_Z 0)
             then num_div (of_Z g) (of_Z a) else of_Z 0) = Fin q /\ (0 <= q)%Q.
Proof.
  intros Hg. unfold of_Z at 1. rewrite num_gt_zero.
  destruct (Qlt_bool 0 (inject_Z a)) eqn:Ea.
  - apply Qlt_bool_iff in Ea. unfold of_Z. rewrite num_div_pos by done.
    eexists. split; [reflexivity|]. apply Qdiv_nonneg; [|done].
    apply of_Z_nonneg. lia.
  - eexists. split; [reflexivity|done].
Qed.

Lemma volume_points_nonneg total :
  nonneg_num total = true ->
  exists k, Math_min (of_Z 15)
      (Math_round (num_mul (num_div total (of_Z 100)) (of_Z 15))) = of_Z k
    /\ 0 <= k <= 15.
Proof.
  intros (t & -> & Ht)%nonneg_num_Fin.
  change (of_Z 100) with (Fin (inject_Z 100)). rewrite num_div_pos by done.
  apply (points_of_nonneg 15 (t / inject_Z 100) (inject_Z 15)); [lia| |done].
  by apply Qdiv_nonneg.
Qed.

Lemma volume_points_finite total :
  is_finite total = true ->
  exists k, Math_min (of_Z 15)
      (Math_round (num_mul (num_div total (of_Z 100)) (of_Z 15))) = of_Z k.
Proof.
  destruct total as [| | |t]; try discriminate. intros _.
  change (of_Z 100) with (Fin (inject_Z 100)). rewrite num_div_pos by done.
  apply (points_of_finite 15 (t / inject_Z 100) (inject_Z 15)).
Qed.

Lemma scoreStreak_points n :
  exists k, s_points (scoreStreak n) = of_Z k /\ k <= 10 /\ (0 <= n -> 0 <= k).
Proof.
  change (s_points (scoreStreak n))
    with (Math_min (of_Z 10) (Math_round
            (num_mul (num_div (Fin (inject_Z n)) (Fin (inject_Z 30))) (of_Z 10)))).
  rewrite num_div_pos by done.
  change (Math_round (num_mul (Fin (inject_Z n / inject_Z 30)) (of_Z 10)))
    with (of_Z (Qfloor (inject_Z n / inject_Z 30 * inject_Z 10 + (1 # 2)))).
  rewrite Math_min_of_Z. eexists. split; [reflexivity|]. split; [lia|].
  intros Hn.
  assert (0 <= Qfloor (inject_Z n / inject_Z 30 * inject_Z 10 + (1 # 2))); [|lia].
  apply round_nonneg. apply Qmult_le_0_compat; [|done].
  apply Qdiv_nonneg; [|done]. by apply of_Z_nonneg.
Qed.
(** *** Where the walk starts and what keeps it going *)

Lemma iso_date_year d : iso_date d -> 100 <= year d.
Proof. intros [Hy _]. lia. Qed.

(** The walk starts at the anchor or at the day before it. *)
Lemma streak_start_date byDate d :
  iso_date d ->
  exists start,
    streak_start byDate (print_date d) = print_date start
    /\ valid_date start /\ (start = d \/ start = prev_day d).
Proof.
  intros Hiso. pose proof Hiso as [_ Hv]. unfold streak_start.
  destruct (truthy (lookup_day byDate (print_date d))); simpl.
  - exists d. split; [done|]. split; [done|by left].
  - exists (prev_day d). split; [|split; [by apply prev_day_valid|by right]].
    apply addDays_prev_day; [done|by apply iso_date_year].
Qed.

Lemma Qeq_bool_pos q : (0 < q)%Q -> Qeq_bool q 0 = false.
Proof.
  intros H. apply not_true_iff_false. intros E%Qeq_bool_iff. rewrite E in H.
  by apply Qlt_irrefl in H.
Qed.

Lemma field_hours_or_zero p :
  hours_field p = true ->
  exists q, ToNumber (js_or p js_zero) = Fin q /\ (q == field_hours p)%Q /\ (0 <= q)%Q.
Proof.
  destruct p as [| | |[| | |q]]; simpl; try discriminate.
  - intros _. exists 0%Q. by repeat split.
  - intros Hq%Qle_bool_iff. unfold js_or. simpl.
    destruct (Qeq_bool q 0) eqn:E; simpl.
    + apply Qeq_bool_iff in E. exists 0%Q. repeat split; [by symmetry|done].
    + exists q. by repeat split.
Qed.

Lemma is_active_number q :
  is_active (Prim (JNum (Fin q))) = negb (Qeq_bool q 0).
Proof.
  unfold is_active, hours_of, truthy, js_or, truthy_prim.
  destruct (Qeq_bool q 0) eqn:E; [done|].
  exact (f_equal negb E).
Qed.

Lemma is_active_object m s x y :
  ToNumber (js_or m js_zero) = Fin x -> ToNumber (js_or s js_zero) = Fin y ->
  is_active (JObj m s) = negb (Qeq_bool (x + y) 0).
Proof.
  intros Hx Hy. unfold is_active, hours_of, truthy, js_plus. rewrite Hx, Hy.
  reflexivity.
Qed.

(** A well-typed record with positive hours keeps the walk going. *)
Lemma positive_activity_active v : positive_activity v = true -> is_active v = true.
Proof.
  unfold positive_activity. intros [Hrec Hpos%Qlt_bool_iff]%andb_prop.
  destruct v as [[| | |[| | |q]]|m s]; simpl in Hrec; try discriminate.
  - simpl in Hpos. by rewrite is_active_number, Qeq_bool_pos.
  - apply andb_prop in Hrec as [Hm Hs].
    destruct (field_hours_or_zero m Hm) as (x & Hx & Hxm & Hx0).
    destruct (field_hours_or_zero s Hs) as (y & Hy & Hys & Hy0).
    rewrite (is_active_object m s x y Hx Hy), Qeq_bool_pos; [done|].
    simpl in Hpos. by rewrite Hxm, Hys.
Qed.

Lemma days_before_S n d : days_before (S n) d = prev_day (days_before n d).
Proof. reflexivity. Qed.

(** *** Dependence on the log *)

Lemma window_dates_index today (w i : nat) :
  i ∈ seq 0 w -> addDays today (- Z.of_nat i) ∈ window_dates today w.
Proof.
  intros Hi. unfold window_dates.
  apply (list_elem_of_fmap_2 (fun i => addDays today (- Z.of_nat i))), Hi.
Qed.

(** The loop over indices is the loop over the dates of the window. *)
Lemma for_window_dates {B : Type} (step : jsval -> B -> result B) byDate today w init :
  for_window w (fun acc i => step (lookup_day byDate (addDays today (- Z.of_nat i))) acc) init
  = for_each (fun acc d => step (lookup_day byDate d) acc) (window_dates today w) init.
Proof. unfold for_window, window_dates. by rewrite for_each_fmap. Qed.

Lemma for_window_ext {B : Type} (step : jsval -> B -> result B) b1 b2 today w init :
  (forall d, d ∈ window_dates today w ->
     forall acc, step (lookup_day b1 d) acc = step (lookup_day b2 d) acc) ->
  for_window w (fun acc i => step (lookup_day b1 (addDays today (- Z.of_nat i))) acc) init
  = for_window w (fun acc i => step (lookup_day b2 (addDays today (- Z.of_nat i))) acc) init.
Proof.
  intros Hext. apply for_each_ext. intros acc i Hi.
  by apply Hext, window_dates_index.
Qed.

Lemma same_day_refl v : same_day v v.
Proof. by repeat split. Qed.

Lemma window_scorers_ext b1 b2 today w :
  (forall d, d ∈ window_dates today w ->
     same_day (lookup_day b1 d) (lookup_day b2 d)) ->
  scoreConsistency b1 today w = scoreConsistency b2 today w
  /\ scoreAutonomy b1 today w = scoreAutonomy b2 today w
  /\ scoreGhostDays b1 today w = scoreGhostDays b2 today w
  /\ scoreVolume b1 today w = scoreVolume b2 today w.
Proof.
  intros Hext.
  unfold scoreConsistency, scoreAutonomy, scoreGhostDays, scoreVolume.
  repeat split; f_equal.
  - apply (for_window_ext consistency_day). intros d Hd. apply (Hext d Hd).
  - apply (for_window_ext autonomy_day). intros d Hd. apply (Hext d Hd).
  - apply (for_window_ext ghost_day). intros d Hd. apply (Hext d Hd).
  - apply (for_window_ext volume_day). intros d Hd. apply (Hext d Hd).
Qed.

Lemma computeStreak_ext b1 b2 today fuel :
  (forall d, same_day (lookup_day b1 d) (lookup_day b2 d)) ->
  computeStreak fuel b1 today = computeStreak fuel b2 today.
Proof.
  intros Hext. unfold computeStreak, streak_start.
  destruct (Hext today) as (_ & _ & _ & _ & -> & _).
  apply streak_loop_ext. intros d. apply (Hext d).
Qed.

Lemma falsy_same_day v : truthy v = false -> same_day v (Prim JUndefined).
Proof.
  intros Hv. unfold same_day, consistency_day, autonomy_day, ghost_day, volume_day,
    is_active. rewrite Hv. simpl. repeat split; by intros [].
Qed.

Lemma js_or_idem p : js_or (js_or p js_zero) js_zero = js_or p js_zero.
Proof. unfold js_or. by destruct (truthy_prim p) eqn:E; [rewrite E|]. Qed.

Lemma object_fields_same_day m s :
  same_day (JObj m s) (JObj (js_or m js_zero) (js_or s js_zero)).
Proof.
  unfold same_day, consistency_day, autonomy_day, ghost_day, volume_day, is_active,
    hours_of, main_of, sub_of, truthy.
  rewrite !js_or_idem. by repeat split.
Qed.

Lemma lookup_day_insert byDate d v x :
  lookup_day (<[d := v]> byDate) x = if decide (d = x) then v else lookup_day byDate x.
Proof. unfold lookup_day. rewrite lookup_insert. by case_decide. Qed.

Lemma lookup_day_delete byDate d x :
  lookup_day (delete d byDate) x
  = if decide (d = x) then Prim JUndefined else lookup_day byDate x.
Proof. unfold lookup_day. rewrite lookup_delete. by case_decide. Qed.

Lemma streak_loop_no_throw fuel byDate d s :
  streak_loop fuel byDate d s <> Some TypeError.
Proof.
  revert d s. induction fuel as [|fuel IH]; intros d s; [done|].
  rewrite streak_loop_step. destruct (is_active (lookup_day byDate d)); [apply IH|done].
Qed.

Lemma zero_hours_inactive v : zero_hours v = true -> is_active v = false.
Proof.
  unfold zero_hours, is_active. destruct (hours_of v) as [a|]; [|discriminate].
  intros ->. by rewrite andb_false_r.
Qed.

Lemma inactive_same_day_streak byDate d v fuel today :
  is_active v = false -> (d <> today \/ truthy v = false) ->
  computeStreak fuel (<[d := v]> byDate) today
  = computeStreak fuel (delete d byDate) today.
Proof.
  intros Hv Hd. unfold computeStreak.
  assert (Hstart : streak_start (<[d := v]> byDate) today
                   = streak_start (delete d byDate) today).
  { unfold streak_start. rewrite lookup_day_insert, lookup_day_delete.
    destruct (decide (d = today)) as [->|Hne]; [|done].
    destruct Hd as [Hd|Hd]; [done|]. by rewrite Hd. }
  rewrite Hstart. apply streak_loop_ext. intros x.
  rewrite lookup_day_insert, lookup_day_delete.
  destruct (decide (d = x)); [by rewrite Hv|done].
Qed.

Lemma scoreConsistency_returns byDate today w :
  exists r, scoreConsistency byDate today w = Ok r.
Proof.
  destruct (consistency_loop byDate today w) as (a & Hloop & _).
  unfold scoreConsistency. rewrite Hloop. simpl. eauto.
Qed.

Lemma scoreAutonomy_returns byDate today w :
  exists r, scoreAutonomy byDate today w = Ok r.
Proof.
  destruct (autonomy_loop byDate today w) as (m & s & Hloop & _).
  unfold scoreAutonomy. rewrite Hloop. simpl. eauto.
Qed.

Lemma scoreGhostDays_returns byDate today w :
  exists r, scoreGhostDays byDate today w = Ok r.
Proof.
  destruct (ghost_loop byDate today w) as (g & a & Hloop & _).
  unfold scoreGhostDays. rewrite Hloop. simpl. eauto.
Qed.

Lemma scoreVolume_returns byDate today w :
  exists r, scoreVolume byDate today w = Ok r.
Proof.
  destruct (volume_loop byDate today w) as (t & Hloop & _).
  unfold scoreVolume. rewrite Hloop. simpl. eauto.
Qed.

Lemma insert_same_day byDate d v v' x :
  same_day v v' ->
  same_day (lookup_day (<[d := v]> byDate) x) (lookup_day (<[d := v']> byDate) x).
Proof.
  intros Hv. rewrite !lookup_day_insert. destruct (decide (d = x)); [done|apply same_day_refl].
Qed.

Lemma insert_delete_same_day byDate d v x :
  truthy v = false ->
  same_day (lookup_day (<[d := v]> byDate) x) (lookup_day (delete d byDate) x).
Proof.
  intros Hv. rewrite lookup_day_insert, lookup_day_delete.
  destruct (decide (d = x)); [by apply falsy_same_day|apply same_day_refl].
Qed.

Lemma all_scores_ext fuel b1 b2 today w :
  (forall d, same_day (lookup_day b1 d) (lookup_day b2 d)) ->
  all_scores fuel b1 today w = all_scores fuel b2 today w.
Proof.
  intros Hext. unfold all_scores.
  destruct (window_scorers_ext b1 b2 today w) as (-> & -> & -> & ->); [by intros d _|].
  by rewrite (computeStreak_ext b1 b2).
Qed.

Lemma window_dates_calendar d w :
  valid_date d -> 100 <= year d ->
  window_dates (print_date d) w = (fun i => print_date (days_before i d)) <$> seq 0 w.
Proof.
  intros Hv Hy. unfold window_dates. apply map_ext. intros i.
  by apply addDays_days_before.
Qed.

Lemma missing_record_skipped :
  (forall a, consistency_day (Prim JUndefined) a = Ok a)
  /\ (forall a, autonomy_day (Prim JUndefined) a = Ok a)
  /\ (forall a, ghost_day (Prim JUndefined) a = Ok a)
  /\ (forall a, volume_day (Prim JUndefined) a = Ok a).
Proof. repeat split; by intros []. Qed.

(** *** Results of the scorers *)

Lemma scoreConsistency_result byDate today :
  exists a,
    scoreConsistency byDate today 30
      = Ok (mkConsistency (Fin (inject_Z a / inject_Z 30)) (of_Z a) a 30)
    /\ 0 <= a <= 30.
Proof.
  destruct (consistency_loop byDate today 30) as (a & Hloop & Ha).
  exists a. split; [|lia].
  unfold scoreConsistency. rewrite Hloop.
  change (Ok a ≫= _) with
    (Ok (mkConsistency (num_div (of_Z a) (of_nat 30))
           (Math_round (num_mul (num_div (of_Z a) (of_nat 30)) (of_Z 30))) a 30)).
  rewrite consistency_points_30.
  change (num_div (of_Z a) (of_nat 30))
    with (num_div (Fin (inject_Z a)) (Fin (inject_Z 30))).
  by rewrite num_div_pos.
Qed.

Lemma scoreAutonomy_result byDate today :
  exists m s,
    scoreAutonomy byDate today 30
      = Ok (mkAutonomy (autonomy_ratio m s)
              (Math_min (of_Z 25) (Math_round (num_mul (autonomy_ratio m s) (Fin (25 # 2)))))
              m s)
    /\ (usage_log byDate -> nonneg_num m = true /\ nonneg_num s = true)
    /\ (json_log byDate -> is_finite m = true /\ is_finite s = true).
Proof.
  destruct (autonomy_loop byDate today 30) as (m & s & Hloop & Hrest).
  exists m, s. split; [|done]. unfold scoreAutonomy. by rewrite Hloop.
Qed.

Lemma scoreGhostDays_result byDate today :
  exists g a q,
    scoreGhostDays byDate today 30
      = Ok (mkGhost g a (Fin q)
              (Math_min (of_Z 20) (Math_round (num_mul (Fin q) (of_Z 25)))))
    /\ (0 <= q)%Q /\ 0 <= g <= a /\ a <= 30.
Proof.
  destruct (ghost_loop byDate today 30) as (g & a & Hloop & Hg & Ha).
  destruct (ghost_pct_nonneg g a Hg) as (q & Hq & Hq0).
  exists g, a, q. split; [|split; [done|lia]].
  unfold scoreGhostDays. rewrite Hloop.
  change (Ok (g, a) ≫= _) with
    (Ok (mkGhost g a
           (if num_gt (of_Z a) (of_Z 0) then num_div (of_Z g) (of_Z a) else of_Z 0)
           (Math_min (of_Z 20) (Math_round (num_mul
              (if num_gt (of_Z a) (of_Z 0) then num_div (of_Z g) (of_Z a) else of_Z 0)
              (of_Z 25)))))).
  by rewrite Hq.
Qed.

Lemma scoreVolume_result byDate today :
  exists t,
    scoreVolume byDate today 30
      = Ok (mkVolume t
              (Math_min (of_Z 15)
                 (Math_round (num_mul (num_div t (of_Z 100)) (of_Z 15)))))
    /\ (usage_log byDate -> nonneg_num t = true)
    /\ (json_log byDate -> is_finite t = true).
Proof.
  destruct (volume_loop byDate today 30) as (t & Hloop & Hrest).
  exists t. split; [|done]. unfold scoreVolume. by rewrite Hloop.
Qed.

Lemma autonomy_points_nonneg m s :
  nonneg_num m = true -> nonneg_num s = true ->
  exists k,
    Math_min (of_Z 25) (Math_round (num_mul (autonomy_ratio m s) (Fin (25 # 2)))) = of_Z k
    /\ 0 <= k <= 25.
Proof.
  intros Hm Hs. destruct (autonomy_ratio_nonneg m s Hm Hs) as (q & -> & Hq).
  apply points_of_nonneg; [lia|done|done].
Qed.

Lemma ghost_points_nonneg q :
  (0 <= q)%Q ->
  exists k,
    Math_min (of_Z 20) (Math_round (num_mul (Fin q) (of_Z 25))) = of_Z k /\ 0 <= k <= 20.
Proof. intros Hq. apply (points_of_nonneg 20 q (inject_Z 25)); [lia|done|done]. Qed.

Lemma total_of_points c a g v s :
  exists q,
    num_add (num_add (num_add (num_add (of_Z c) (of_Z a)) (of_Z g)) (of_Z v)) (of_Z s)
    = Fin q
    /\ (q == inject_Z (c + a + g + v + s))%Q.
Proof.
  eexists. split; [reflexivity|]. by rewrite !inject_Z_plus.
Qed.

Lemma for_each_skip {A B : Type} (body : B -> A -> result B) l acc :
  (forall b x, body b x = Ok b) -> for_each body l acc = Ok acc.
Proof.
  intros Hskip. induction l as [|x l IH]; [done|].
  simpl. rewrite Hskip. exact IH.
Qed.

Lemma lookup_day_empty d : lookup_day ∅ d = Prim JUndefined.
Proof. apply lookup_day_None, lookup_empty. Qed.

Lemma empty_log_report today fuel :
  score_report (S fuel) ∅ today = Some (Ok empty_report).
Proof.
  unfold score_report, scoreConsistency, scoreAutonomy, scoreGhostDays, scoreVolume,
    for_window.
  rewrite (for_each_skip (consistency_body ∅ today)),
          (for_each_skip (autonomy_body ∅ today)),
          (for_each_skip (ghost_body ∅ today)),
          (for_each_skip (volume_body ∅ today)).
  - unfold computeStreak. rewrite streak_loop_step, lookup_day_empty. reflexivity.
  - intros b i. unfold volume_body. by rewrite lookup_day_empty.
  - intros [] i. unfold ghost_body. by rewrite lookup_day_empty.
  - intros [] i. unfold autonomy_body. by rewrite lookup_day_empty.
  - intros b i. unfold consistency_body. by rewrite lookup_day_empty.
Qed.

Lemma num_ge_of_Z a b : num_ge (of_Z a) (of_Z b) = (b <=? a).
Proof.
  unfold num_ge, of_Z. rewrite num_lt_Fin.
  destruct (Qlt_bool (inject_Z a) (inject_Z b)) eqn:E; simpl; symmetry.
  - apply Qlt_bool_iff in E. apply (proj1 (inject_Z_lt _ _)) in E. apply Z.leb_gt. lia.
  - apply Qlt_bool_false in E. apply (proj1 (inject_Z_le _ _)) in E. apply Z.leb_le. lia.
Qed.

Lemma grade_of_Z t :
  grade (of_Z t) =
  if 90 <=? t then mkTier "S" "Cyborg" "You and AI are seamlessly fused."
  else if 75 <=? t then mkTier "A" "Power User" "Serious AI collaboration."
  else if 60 <=? t then mkTier "B" "Growing" "Your AI habits are taking shape."
  else if 45 <=? t then mkTier "C" "Early Stage" "Room to develop the relationship."
  else if 30 <=? t then mkTier "D" "Getting Started" "Keep going."
  else mkTier "F" "Dormant" "Wake up your AI.".
Proof. unfold grade. by rewrite !num_ge_of_Z. Qed.

Lemma autonomy_ratio_cases main sub :
  exists q,
    autonomy_ratio (Fin main) (Fin sub) = Fin q
    /\ ((0 < main)%Q -> q = (sub / main)%Q)
    /\ (~ (0 < main)%Q -> (0 < sub)%Q -> q = inject_Z 2)
    /\ (~ (0 < main)%Q -> ~ (0 < sub)%Q -> q = inject_Z 0).
Proof.
  unfold autonomy_ratio. rewrite !num_gt_zero.
  destruct (Qlt_bool 0 main) eqn:Em.
  - apply Qlt_bool_iff in Em. rewrite num_div_pos by done.
    exists (sub / main)%Q. repeat split; done.
  - apply Qlt_bool_false in Em.
    assert (Hnm : ~ (0 < main)%Q) by (by apply Qle_not_lt).
    destruct (Qlt_bool 0 sub) eqn:Es.
    + apply Qlt_bool_iff in Es. exists (inject_Z 2). repeat split; done.
    + apply Qlt_bool_false in Es.
      assert (Hns : ~ (0 < sub)%Q) by (by apply Qle_not_lt).
      exists (inject_Z 0). repeat split; done.
Qed.

(** * The specification, statement by statement *)





(** C3, as the code has it.  A record whose hours sum to zero stops the
    streak exactly as a missing record does at every date other than the
    anchor, and at the anchor too when the record is the number 0.  An
    object with zero hours at the anchor is a record: the walk does not fall
    back to the previous day and the streak is 0. *)
Theorem zero_record_stops_streak byDate today d v fuel :
  zero_hours v = true ->
  ((d <> today \/ truthy v = false) ->
     computeStreak fuel (<[d := v]> byDate) today
     = computeStreak fuel (delete d byDate) today)
  /\ (truthy v = true ->
        computeStreak (S fuel) (<[today := v]> byDate) today = Some (Ok 0)).
Proof.
  intros Hzero. pose proof (zero_hours_inactive v Hzero) as Hin. split.
  - intros Hd. by apply inactive_same_day_streak.
  - intros Ht. unfold computeStreak, streak_start.
    rewrite lookup_day_insert, decide_True by done. rewrite Ht. simpl negb. cbv iota.
    rewrite streak_loop_step, lookup_day_insert, decide_True by done.
    by rewrite Hin.
Qed.

Lemma zero_record_stops_streak_witness :
  computeStreak 2 (<[march9 := hours 0 0]> {[ march10 := hours 1 2 ]}) march10
    = computeStreak 2 (delete march9 {[ march10 := hours 1 2 ]}) march10
  /\ computeStreak 3 (<[march10 := hours 0 0]> {[ march10 := hours 1 2 ]}) march10
    = Some (Ok 0).
Proof.
  destruct (zero_record_stops_streak {[ march10 := hours 1 2 ]} march10 march9
              (hours 0 0) 2 eq_refl) as [Hother Hanchor].
  split.
  - apply Hother. left. discriminate.
  - apply Hanchor. reflexivity.
Defined.

(** C3, counterexample.  Yesterday has three hours.  With no record for
    today the streak is 1; with a record for today whose two fields are 0 it
    is 0. *)
Lemma zero_anchor_record_is_not_missing :
  computeStreak 3 (<[march10 := hours 0 0]> {[ march9 := hours 1 2 ]}) march10
    = Some (Ok 0)
  /\ computeStreak 3 (delete march10 {[ march9 := hours 1 2 ]}) march10
    = Some (Ok 1)
  /\ computeStreak 3 (<[march10 := hours 0 0]> {[ march9 := hours 1 2 ]}) march10
     <> computeStreak 3 (delete march10 {[ march9 := hours 1 2 ]}) march10.
Proof. vm_compute. repeat split; discriminate. Qed.

(** C4.  The grader is a lookup of the total in six ranges that are
    ordered, do not overlap and include their lower bound: a total in the
    range of a row of [grade_table] gets the row's tier and label, every
    total from 0 to 100 is in exactly one row; 90 gives S, 89 and 75 give A,
    74 gives B. *)
Theorem grade_is_table_lookup :
  (forall lo hi g l t,
      (lo, hi, g, l) ∈ grade_table -> lo <= t <= hi ->
      t_grade (grade (of_Z t)) = g /\ t_label (grade (of_Z t)) = l)
  /\ (forall t, 0 <= t <= 100 ->
        exists lo hi g l, (lo, hi, g, l) ∈ grade_table /\ lo <= t <= hi)
  /\ (forall r1 r2 t,
        r1 ∈ grade_table -> r2 ∈ grade_table ->
        r1.1.1.1 <= t <= r1.1.1.2 -> r2.1.1.1 <= t <= r2.1.1.2 -> r1 = r2)
  /\ t_grade (grade (of_Z 90)) = "S"%string
  /\ t_grade (grade (of_Z 89)) = "A"%string
  /\ t_grade (grade (of_Z 75)) = "A"%string
  /\ t_grade (grade (of_Z 74)) = "B"%string.
Proof.
  split; [|split; [|split]].
  - intros lo hi g l t Hin Ht. rewrite grade_of_Z.
    unfold grade_table in Hin.
    repeat (apply elem_of_cons in Hin as [Hin|Hin];
            [injection Hin as -> -> -> ->; repeat case_match; simpl; first [lia | done]|]).
    by apply elem_of_nil in Hin.
  - intros t Ht. unfold grade_table.
    destruct (Z.le_gt_cases 90 t); [do 4 eexists; split; [apply list_elem_of_here|lia]|].
    destruct (Z.le_gt_cases 75 t);
      [do 4 eexists; split; [do 1 apply list_elem_of_further; apply list_elem_of_here|lia]|].
    destruct (Z.le_gt_cases 60 t);
      [do 4 eexists; split; [do 2 apply list_elem_of_further; apply list_elem_of_here|lia]|].
    destruct (Z.le_gt_cases 45 t);
      [do 4 eexists; split; [do 3 apply list_elem_of_further; apply list_elem_of_here|lia]|].
    destruct (Z.le_gt_cases 30 t);
      [do 4 eexists; split; [do 4 apply list_elem_of_further; apply list_elem_of_here|lia]|].
    do 4 eexists; split; [do 5 apply list_elem_of_further; apply list_elem_of_here|lia].
  - intros r1 r2 t H1 H2 Ht1 Ht2. unfold grade_table in *.
    repeat (apply elem_of_cons in H1 as [->|H1]);
      try (by apply elem_of_nil in H1);
      repeat (apply elem_of_cons in H2 as [->|H2]);
      try (by apply elem_of_nil in H2); simpl in *; first [done | lia].
  - repeat split; by rewrite grade_of_Z.
Qed.











(** C10.  Two logs that agree on every date of the window give the same
    Consistency, Autonomy, GhostDays and Volume results, points and
    diagnostic fields alike, whatever they hold at other dates. *)
Theorem window_scores_read_window_only (byDate1 byDate2 : gmap string jsval) today w :
  (forall d, d ∈ window_dates today w -> byDate1 !! d = byDate2 !! d) ->
  scoreConsistency byDate1 today w = scoreConsistency byDate2 today w
  /\ scoreAutonomy byDate1 today w = scoreAutonomy byDate2 today w
  /\ scoreGhostDays byDate1 today w = scoreGhostDays byDate2 today w
  /\ scoreVolume byDate1 today w = scoreVolume byDate2 today w.
Proof.
  intros Hagree. apply window_scorers_ext. intros d Hd.
  unfold lookup_day. rewrite (Hagree d Hd). apply same_day_refl.
Qed.

Lemma window_scores_read_window_only_witness :
  scoreConsistency log_with_outside march10 30 = scoreConsistency log_in_window march10 30
  /\ scoreAutonomy log_with_outside march10 30 = scoreAutonomy log_in_window march10 30
  /\ scoreGhostDays log_with_outside march10 30 = scoreGhostDays log_in_window march10 30
  /\ scoreVolume log_with_outside march10 30 = scoreVolume log_in_window march10 30.
Proof.
  apply (window_scores_read_window_only log_with_outside log_in_window march10 30).
  apply Forall_forall. unfold window_dates. simpl seq. cbn [map].
  repeat (constructor; [vm_compute; reflexivity|]). constructor.
Defined.

(** * Further properties of the code

    ** The new definitions on sample inputs *)

Example localToday_sample :
  localToday 1710028800000 (-540) = InRange "2024-03-10"
  /\ localToday 1710028800000 480 = InRange "2024-03-09"
  /\ toISOString (TimeClip 1710028800123) = InRange "2024-03-10T00:00:00.123Z"
  /\ toISOString (TimeClip (-62198755200000)) = InRange "-000001-01-01T00:00:00.000Z".
Proof. vm_compute. repeat split. Qed.

Example miniBar_sample :
  miniBar (of_Z 18) (of_Z 25) (of_Z 10)
  = InRange (C.cyan ++ "███████" ++ C.dim ++ "░░░" ++ C.reset)%string
  /\ miniBar (of_Z 26) (of_Z 25) (of_Z 10)
     = InRange (C.cyan ++ "██████████" ++ C.dim ++ C.reset)%string
  /\ miniBar (of_Z 27) (of_Z 25) (of_Z 10) = RangeError
  /\ miniBar (of_Z 0) (of_Z 0) (of_Z 10)
     = InRange (C.cyan ++ C.dim ++ C.reset)%string.
Proof. vm_compute. repeat split. Qed.

(** ** [addDays] as a shift of day numbers *)

(** Whatever three numbers the string holds, [addDays] moves their [Date]
    by [n] days. *)
Lemma shift_date_new_Date ymd n :
  shift_date ymd n
  = from_day (new_Date (year ymd) (month ymd - 1) (day ymd) + n).
Proof.
  cbv beta zeta delta [shift_date setDate getDate getFullYear getMonth from_day].
  by rewrite MakeDay_shift, MakeDay_readers.
Qed.

Lemma addDays_parseDateLocal s n t :
  parseDateLocal s = Some t -> addDays s n = print_date (from_day (t + n)).
Proof.
  unfold parseDateLocal, addDays. destruct (read_date s) as [ymd|]; [|done].
  simpl. intros [= <-]. by rewrite shift_date_new_Date.
Qed.

Lemma parseDateLocal_print_date d :
  valid_date d -> 100 <= year d -> parseDateLocal (print_date d) = Some (to_day d).
Proof.
  intros Hv Hy. destruct (valid_date_fields d Hv) as [Hm Hd].
  unfold parseDateLocal. rewrite read_print_date by (done || lia). simpl.
  unfold new_Date, to_day.
  assert (((0 <=? year d) && (year d <=? 99)) = false) as ->; [|done].
  apply andb_false_intro2. lia.
Qed.

Lemma addDays_day_number d n :
  valid_date d -> 100 <= year d ->
  addDays (print_date d) n = print_date (from_day (to_day d + n)).
Proof.
  intros Hv Hy. apply addDays_parseDateLocal. by apply parseDateLocal_print_date.
Qed.

(** The date a shift of an ISO date arrives at, when that is an ISO date
    again. *)
Lemma addDays_iso_date d n :
  iso_date d -> iso_string (addDays (print_date d) n) ->
  iso_date (from_day (to_day d + n)).
Proof.
  intros [Hy Hv] (d' & Hiso & Heq).
  rewrite addDays_day_number in Heq by (done || lia).
  apply print_date_inj in Heq; [by subst d'|apply from_day_valid|apply Hiso].
Qed.

Lemma iso_date_plain d : iso_date d -> valid_date d /\ 100 <= year d.
Proof. intros [Hy Hv]. split; [done|lia]. Qed.



Lemma days_before_lt (k : nat) d :
  valid_date d -> (0 < k)%nat -> date_lt (days_before k d) d.
Proof.
  intros Hv Hk. destruct k as [|k]; [lia|]. simpl.
  destruct (days_before_le k d Hv) as [Heq|Hlt].
  - rewrite Heq. by apply prev_day_lt.
  - eapply date_lt_trans; [|exact Hlt]. by apply prev_day_lt, days_before_valid.
Qed.

Lemma date_lt_irrefl d : ~ date_lt d d.
Proof. unfold date_lt. lia. Qed.



(** ** Strings that are not dates *)

Lemma read_date_few_fields s :
  (length (split_dash s) < 3)%nat -> read_date s = None.
Proof.
  unfold read_date. destruct (split_dash s) as [|a [|b [|c l]]]; simpl; try lia.
  - done.
  - by destruct (Number a).
  - by destruct (Number a), (Number b).
Qed.

Lemma addDays_few_fields s n :
  (length (split_dash s) < 3)%nat -> addDays s n = not_a_date.
Proof. intros Hlen. unfold addDays. by rewrite read_date_few_fields. Qed.

(** X3.  A string with fewer than three fields between dashes is not a
    date: [addDays] returns "NaN-NaN-NaN" for it whatever the shift, and a
    further shift of that result gives "NaN-NaN-NaN" again. *)
Theorem addDays_not_a_date s n m :
  (length (split_dash s) < 3)%nat ->
  addDays s n = not_a_date /\ addDays (addDays s n) m = not_a_date.
Proof.
  intros Hlen. rewrite (addDays_few_fields s n Hlen). split; reflexivity.
Qed.

Lemma addDays_not_a_date_witness :
  addDays "2024-03" (-1) = not_a_date
  /\ addDays (addDays "2024-03" (-1)) (-1) = not_a_date.
Proof. apply (addDays_not_a_date "2024-03" (-1) (-1)). simpl. lia. Defined.



(** ** Scoring from an anchor that is not a date *)

Lemma window_lookup_not_a_date byDate today i :
  (length (split_dash today) < 3)%nat -> byDate !! not_a_date = None ->
  lookup_day byDate (addDays today (- Z.of_nat i)) = Prim JUndefined.
Proof.
  intros Hlen Hnone.
  rewrite (addDays_few_fields today _ Hlen). by apply lookup_day_None.
Qed.





(** ** The streak on usage logs *)

Lemma Qlt_bool_nonzero q : (0 <= q)%Q -> negb (Qeq_bool q 0) = Qlt_bool 0 q.
Proof.
  intros Hq. destruct (Qeq_bool q 0) eqn:E; simpl; symmetry.
  - apply Qeq_bool_iff in E. apply Qlt_bool_false. rewrite E. apply Qle_refl.
  - apply Qlt_bool_iff. apply Qle_lt_or_eq in Hq as [Hlt|Heq]; [done|].
    exfalso. apply Qeq_bool_neq in E. apply E. by symmetry.
Qed.

(** On a well-typed record the walk goes on exactly when the hours are
    positive. *)
Lemma day_record_active v : day_record v = true -> is_active v = positive_activity v.
Proof.
  intros Hrec. unfold positive_activity. rewrite Hrec. simpl andb.
  destruct v as [[| | |[| | |q]]|m s]; simpl in Hrec; try discriminate.
  - apply Qle_bool_iff in Hrec. rewrite is_active_number. by apply Qlt_bool_nonzero.
  - apply andb_prop in Hrec as [Hm Hs].
    destruct (field_hours_or_zero m Hm) as (x & Hx & Hxm & Hx0).
    destruct (field_hours_or_zero s Hs) as (y & Hy & Hys & Hy0).
    rewrite (is_active_object m s x y Hx Hy).
    assert (Hxy : (0 <= x + y)%Q).
    { replace 0%Q with (0 + 0)%Q by done. by apply Qplus_le_compat. }
    rewrite Qlt_bool_nonzero by done.
    simpl record_hours.
    destruct (Qlt_bool 0 (x + y)) eqn:E1, (Qlt_bool 0 (field_hours m + field_hours s)) eqn:E2;
        try done.
      + apply Qlt_bool_iff in E1. apply Qlt_bool_false in E2.
        rewrite Hxm, Hys in E1. exfalso. by apply (Qlt_not_le _ _ E1).
      + apply Qlt_bool_iff in E2. apply Qlt_bool_false in E1.
        rewrite <- Hxm, <- Hys in E2. exfalso. by apply (Qlt_not_le _ _ E2).
Qed.

Lemma usage_log_active byDate x :
  usage_log byDate ->
  is_active (lookup_day byDate x) = positive_activity (lookup_day byDate x).
Proof.
  intros Hlog. destruct (lookup_day_usage byDate x Hlog) as [->|Hrec]; [done|].
  by apply day_record_active.
Qed.



(** ** Records the walk does not read *)

Lemma streak_loop_agree b1 b2 :
  iso_keys b1 ->
  forall fuel d s,
    valid_date d ->
    (forall k, b1 !! print_date (days_before k d) = b2 !! print_date (days_before k d)) ->
    streak_loop fuel b1 (print_date d) s = streak_loop fuel b2 (print_date d) s.
Proof.
  intros Hkeys. induction fuel as [|fuel IH]; intros d s Hv Hagree; [done|].
  rewrite !streak_loop_step.
  assert (Hlook : lookup_day b1 (print_date d) = lookup_day b2 (print_date d)).
  { exact (f_equal (default (Prim JUndefined)) (Hagree 0%nat)). }
  rewrite <- Hlook.
  destruct (is_active (lookup_day b1 (print_date d))) eqn:Hact; [|done].
  destruct (iso_keys_date b1 d Hkeys Hv) as [Hy _]; [by apply is_active_lookup|].
  rewrite addDays_prev_day by (done || lia).
  apply IH; [by apply prev_day_valid|].
  intros k. rewrite days_before_prev, <- days_before_S. apply Hagree.
Qed.

(** X8.  The streak reads no date after the anchor: two logs that hold the
    same records at the anchor day and at every day before it give the same
    streak, whatever they hold at later dates. *)
Theorem streak_reads_no_later_date b1 b2 d fuel :
  iso_date d -> iso_keys b1 ->
  (forall k, b1 !! print_date (days_before k d) = b2 !! print_date (days_before k d)) ->
  computeStreak fuel b1 (print_date d) = computeStreak fuel b2 (print_date d).
Proof.
  intros Hiso Hkeys Hagree. pose proof Hiso as [_ Hv].
  assert (Hlook : lookup_day b1 (print_date d) = lookup_day b2 (print_date d)).
  { exact (f_equal (default (Prim JUndefined)) (Hagree 0%nat)). }
  unfold computeStreak, streak_start. rewrite <- Hlook.
  destruct (truthy (lookup_day b1 (print_date d))); simpl negb; cbv iota.
  - by apply streak_loop_agree.
  - rewrite addDays_prev_day by (done || by apply iso_date_year).
    apply streak_loop_agree; [done|by apply prev_day_valid|].
    intros k. rewrite days_before_prev, <- days_before_S. apply Hagree.
Qed.

(** A record dated after the anchor is at none of the dates of the walk. *)
Lemma later_date_not_before d f k :
  valid_date d -> valid_date f -> date_lt d f ->
  print_date f <> print_date (days_before k d).
Proof.
  intros Hv Hf Hlt Heq.
  apply print_date_inj in Heq; [|done|by apply days_before_valid].
  subst f. destruct (days_before_le k d Hv) as [Heq|Hlt'].
  - rewrite Heq in Hlt. by apply date_lt_irrefl in Hlt.
  - apply (date_lt_irrefl d). by eapply date_lt_trans.
Qed.

Lemma streak_reads_no_later_date_witness :
  computeStreak 5 log_in_window (print_date march10_date)
  = computeStreak 5 (<[april1 := hours 7 0]> log_in_window) (print_date march10_date).
Proof.
  apply (streak_reads_no_later_date log_in_window
           (<[april1 := hours 7 0]> log_in_window) march10_date 5).
  - unfold iso_date, valid_date. simpl. lia.
  - apply map_Forall_singleton. exists march10_date. split; [|reflexivity].
    unfold iso_date, valid_date. simpl. lia.
  - intros k. symmetry. apply lookup_insert_ne.
    apply (later_date_not_before march10_date (mkDate 2024 4 1) k).
    + unfold valid_date. simpl. lia.
    + unfold valid_date. simpl. lia.
    + unfold date_lt. simpl. lia.
Defined.

(** ** The aggregates as counts and sums *)

(** Comparisons of rationals as booleans, turned into propositions. *)
Ltac qbool :=
  repeat match goal with
  | H : Qlt_bool _ _ = true |- _ => apply Qlt_bool_iff in H
  | H : Qlt_bool _ _ = false |- _ => apply Qlt_bool_false in H
  | H : Qeq_bool _ _ = true |- _ => apply Qeq_bool_iff in H
  | H : Qeq_bool _ _ = false |- _ => apply Qeq_bool_neq in H
  | H : Qle_bool _ _ = true |- _ => apply Qle_bool_iff in H
  end.

Lemma field_or_zero p :
  hours_field p = true ->
  exists q, js_or p js_zero = JNum (Fin q) /\ (q == field_hours p)%Q /\ (0 <= q)%Q.
Proof.
  destruct p as [| | |[| | |q]]; simpl; try discriminate.
  - intros _. exists 0%Q. by repeat split.
  - intros Hq%Qle_bool_iff. unfold js_or. simpl.
    destruct (Qeq_bool q 0) eqn:E; simpl.
    + apply Qeq_bool_iff in E. exists 0%Q. repeat split; [by symmetry|done].
    + exists q. by repeat split.
Qed.

(** What the three readings of a well-typed record give when the record is
    truthy, and what a falsy one holds. *)
Lemma day_record_truthy v :
  day_record v = true -> truthy v = true ->
  exists x y h,
    main_of v = Ok (JNum (Fin x)) /\ sub_of v = Ok (JNum (Fin y))
    /\ hours_of v = Ok (JNum (Fin h))
    /\ (x == main_hours v)%Q /\ (y == sub_hours v)%Q /\ (h == record_hours v)%Q
    /\ (0 <= x)%Q /\ (0 <= y)%Q /\ (h == x + y)%Q.
Proof.
  intros Hrec Ht.
  destruct v as [[| | |[| | |q]]|m s]; simpl in Hrec; try discriminate.
  - apply Qle_bool_iff in Hrec. simpl in Ht.
    exists 0%Q, q, q. unfold hours_of, sub_of, main_of, js_or. simpl. rewrite Ht.
    repeat split; try done. ring.
  - apply andb_prop in Hrec as [Hm Hs].
    destruct (field_or_zero m Hm) as (x & Hx & Hxm & Hx0).
    destruct (field_or_zero s Hs) as (y & Hy & Hys & Hy0).
    exists x, y, (x + y)%Q. unfold hours_of, sub_of, main_of. rewrite Hx, Hy.
    repeat split; try done. simpl. by rewrite Hxm, Hys.
Qed.

Lemma day_record_falsy v :
  v = Prim JUndefined \/ day_record v = true -> truthy v = false ->
  (main_hours v == 0)%Q /\ (sub_hours v == 0)%Q /\ (record_hours v == 0)%Q
  /\ positive_activity v = false /\ ghost_record v = false.
Proof.
  intros [->|Hrec] Ht; [by repeat split|].
  destruct v as [[| | |[| | |q]]|m s]; simpl in Hrec, Ht; try discriminate.
  apply negb_false_iff in Ht. pose proof Ht as Hq. apply Qeq_bool_iff in Hq.
  assert (Hpos : positive_activity (Prim (JNum (Fin q))) = false).
  { unfold positive_activity. simpl. rewrite Hrec. simpl.
    apply Qlt_bool_false. rewrite Hq. apply Qle_refl. }
  unfold ghost_record. rewrite Hpos. by repeat split.
Qed.

Lemma consistency_day_count v a :
  v = Prim JUndefined \/ day_record v = true ->
  consistency_day v a = Ok (a + if positive_activity v then 1 else 0).
Proof.
  intros Hv. unfold consistency_day. destruct (truthy v) eqn:Ht; simpl negb; cbv iota.
  - destruct Hv as [->|Hrec]; [done|].
    destruct (day_record_truthy v Hrec Ht) as (x & y & h & _ & _ & -> & _ & _ & Hh & _).
    simpl. unfold js_greater. simpl ToNumber. rewrite num_gt_zero.
    unfold positive_activity. rewrite Hrec. simpl andb.
    destruct (Qlt_bool 0 h) eqn:E1, (Qlt_bool 0 (record_hours v)) eqn:E2;
      rewrite ?Z.add_0_r; try done; qbool; exfalso; lra.
  - destruct (day_record_falsy v Hv Ht) as (_ & _ & _ & -> & _).
    by rewrite Z.add_0_r.
Qed.

Lemma ghost_day_count v g a :
  v = Prim JUndefined \/ day_record v = true ->
  ghost_day v (g, a)
  = Ok (g + (if ghost_record v then 1 else 0), a + if positive_activity v then 1 else 0).
Proof.
  intros Hv. unfold ghost_day. destruct (truthy v) eqn:Ht; simpl negb; cbv iota.
  - destruct Hv as [->|Hrec]; [done|].
    destruct (day_record_truthy v Hrec Ht)
      as (x & y & h & -> & -> & _ & Hx & Hy & Hh & Hx0 & Hy0 & Hxy).
    simpl. unfold js_greater. simpl ToNumber. rewrite !num_gt_zero.
    unfold ghost_record, positive_activity. rewrite Hrec. simpl andb.
    change (inject_Z 0) with 0%Q.
    assert (Hpos : Qlt_bool 0 (record_hours v) = (Qlt_bool 0 x || Qlt_bool 0 y)).
    { destruct (Qlt_bool 0 (record_hours v)) eqn:E0, (Qlt_bool 0 x) eqn:E1,
        (Qlt_bool 0 y) eqn:E2; try done; qbool; exfalso; lra. }
    assert (Hgh : (Qlt_bool 0 (record_hours v) && Qeq_bool (main_hours v) 0)
                  = (Qeq_bool x 0 && Qlt_bool 0 y)).
    { rewrite Hpos.
      destruct (Qeq_bool (main_hours v) 0) eqn:E0, (Qeq_bool x 0) eqn:E3,
        (Qlt_bool 0 x) eqn:E1, (Qlt_bool 0 y) eqn:E2; try done; qbool; exfalso;
        lra. }
    rewrite Hgh, Hpos.
    destruct (Qlt_bool 0 x || Qlt_bool 0 y) eqn:E.
    + destruct (Qeq_bool x 0 && Qlt_bool 0 y); by rewrite ?Z.add_0_r.
    + apply orb_false_elim in E as [_ ->]. rewrite andb_false_r.
      by rewrite !Z.add_0_r.
  - destruct (day_record_falsy v Hv Ht) as (_ & _ & _ & -> & ->).
    by rewrite !Z.add_0_r.
Qed.

Lemma consistency_count byDate : usage_log byDate -> forall dates a,
  for_each (fun acc d => consistency_day (lookup_day byDate d) acc) dates a
  = Ok (a + count_days positive_activity byDate dates).
Proof.
  intros Hlog. induction dates as [|d rest IH]; intros a.
  - simpl. by rewrite Z.add_0_r.
  - cbn [for_each]. rewrite consistency_day_count by by apply lookup_day_usage.
    cbn [mbind result_bind count_days]. rewrite IH. f_equal. lia.
Qed.

Lemma ghost_count byDate : usage_log byDate -> forall dates g a,
  for_each (fun acc d => ghost_day (lookup_day byDate d) acc) dates (g, a)
  = Ok (g + count_days ghost_record byDate dates,
        a + count_days positive_activity byDate dates).
Proof.
  intros Hlog. induction dates as [|d rest IH]; intros g a.
  - simpl. by rewrite !Z.add_0_r.
  - cbn [for_each]. rewrite ghost_day_count by by apply lookup_day_usage.
    cbn [mbind result_bind count_days]. rewrite IH. do 2 f_equal; lia.
Qed.

(** X9.  On a usage log the counts are those the specification words:
    Consistency's [activeDays] is the number of window dates whose record has
    positive hours, GhostDays counts the same days as active, and its
    [ghostDays] is the number of window dates with positive hours none of which
    are primary. *)
Theorem window_counts byDate today (w : nat) :
  usage_log byDate ->
  exists c g,
    scoreConsistency byDate today w = Ok c
    /\ scoreGhostDays byDate today w = Ok g
    /\ c_activeDays c = count_days positive_activity byDate (window_dates today w)
    /\ g_activeDays g = c_activeDays c
    /\ g_ghostDays g = count_days ghost_record byDate (window_dates today w).
Proof.
  intros Hlog. unfold scoreConsistency, scoreGhostDays.
  unfold consistency_body, ghost_body.
  rewrite (for_window_dates consistency_day), (for_window_dates ghost_day).
  rewrite consistency_count, ghost_count by done.
  simpl. do 2 eexists. split; [reflexivity|]. split; [reflexivity|]. by simpl.
Qed.

Lemma window_counts_witness :
  exists c g,
    scoreConsistency readme_log march10 30 = Ok c
    /\ scoreGhostDays readme_log march10 30 = Ok g
    /\ c_activeDays c = count_days positive_activity readme_log (window_dates march10 30)
    /\ g_activeDays g = c_activeDays c
    /\ g_ghostDays g = count_days ghost_record readme_log (window_dates march10 30).
Proof.
  apply (window_counts readme_log march10 30).
  apply map_Forall_to_list. unfold readme_log.
  vm_compute. repeat constructor.
Defined.

Lemma autonomy_day_sum v m s :
  v = Prim JUndefined \/ day_record v = true ->
  exists m' s',
    autonomy_day v (Fin m, Fin s) = Ok (Fin m', Fin s')
    /\ (m' == m + main_hours v)%Q /\ (s' == s + sub_hours v)%Q.
Proof.
  intros Hv. unfold autonomy_day. destruct (truthy v) eqn:Ht; simpl negb; cbv iota.
  - destruct Hv as [->|Hrec]; [done|].
    destruct (day_record_truthy v Hrec Ht)
      as (x & y & h & -> & -> & _ & Hx & Hy & _).
    exists (m + x)%Q, (s + y)%Q. split; [done|]. by rewrite Hx, Hy.
  - destruct (day_record_falsy v Hv Ht) as (Hm & Hs & _).
    exists m, s. split; [done|]. rewrite Hm, Hs. split; ring.
Qed.

Lemma volume_day_sum v t :
  v = Prim JUndefined \/ day_record v = true ->
  exists t', volume_day v (Fin t) = Ok (Fin t') /\ (t' == t + record_hours v)%Q.
Proof.
  intros Hv. unfold volume_day. destruct (truthy v) eqn:Ht; simpl negb; cbv iota.
  - destruct Hv as [->|Hrec]; [done|].
    destruct (day_record_truthy v Hrec Ht) as (x & y & h & _ & _ & -> & _ & _ & Hh & _).
    exists (t + h)%Q. split; [done|]. by rewrite Hh.
  - destruct (day_record_falsy v Hv Ht) as (_ & _ & Hr & _).
    exists t. split; [done|]. rewrite Hr. ring.
Qed.

Lemma autonomy_sum byDate : usage_log byDate -> forall dates m s,
  exists m' s',
    for_each (fun acc d => autonomy_day (lookup_day byDate d) acc) dates (Fin m, Fin s)
    = Ok (Fin m', Fin s')
    /\ (m' == m + sum_days main_hours byDate dates)%Q
    /\ (s' == s + sum_days sub_hours byDate dates)%Q.
Proof.
  intros Hlog. induction dates as [|d rest IH]; intros m s.
  - exists m, s. split; [done|]. simpl. split; ring.
  - destruct (autonomy_day_sum (lookup_day byDate d) m s) as (m1 & s1 & Hday & Hm1 & Hs1);
      [by apply lookup_day_usage|].
    destruct (IH m1 s1) as (m' & s' & Hrest & Hm' & Hs').
    exists m', s'. cbn [for_each]. rewrite Hday. cbn [mbind result_bind].
    split; [done|]. cbn [sum_days]. rewrite Hm', Hs', Hm1, Hs1. split; ring.
Qed.

Lemma volume_sum byDate : usage_log byDate -> forall dates t,
  exists t',
    for_each (fun acc d => volume_day (lookup_day byDate d) acc) dates (Fin t) = Ok (Fin t')
    /\ (t' == t + sum_days record_hours byDate dates)%Q.
Proof.
  intros Hlog. induction dates as [|d rest IH]; intros t.
  - exists t. split; [done|]. simpl. ring.
  - destruct (volume_day_sum (lookup_day byDate d) t) as (t1 & Hday & Ht1);
      [by apply lookup_day_usage|].
    destruct (IH t1) as (t' & Hrest & Ht').
    exists t'. cbn [for_each]. rewrite Hday. cbn [mbind result_bind].
    split; [done|]. cbn [sum_days]. rewrite Ht', Ht1. ring.
Qed.



(** ** Streak and Consistency *)

(** More fuel does not change a result. *)
Lemma streak_loop_more_fuel byDate fuel : forall fuel' d s r,
  streak_loop fuel byDate d s = Some r -> (fuel <= fuel')%nat ->
  streak_loop fuel' byDate d s = Some r.
Proof.
  induction fuel as [|fuel IH]; intros fuel' d s r Hrun Hle; [done|].
  destruct fuel' as [|fuel']; [lia|].
  rewrite streak_loop_step in *.
  destruct (is_active (lookup_day byDate d)); [|done].
  apply IH; [done|lia].
Qed.

Lemma count_days_nonneg p byDate dates : 0 <= count_days p byDate dates.
Proof. induction dates as [|d rest IH]; simpl; [lia|]. destruct (p _); lia. Qed.

(** A run of [m] dates at the head of the list that all count. *)
Lemma count_days_prefix p byDate (f : nat -> string) (len : nat) : forall (a m : nat),
  (forall i, (a <= i < a + m)%nat -> p (lookup_day byDate (f i)) = true) ->
  Z.of_nat (Nat.min m len) <= count_days p byDate (f <$> seq a len).
Proof.
  induction len as [|len IH]; intros a m Hrun.
  - rewrite Nat.min_0_r. simpl. lia.
  - destruct m as [|m].
    + simpl Nat.min. apply count_days_nonneg.
    + cbn [seq fmap list_fmap count_days]. rewrite Hrun by lia.
      specialize (IH (S a) m). rewrite <- Nat.succ_min_distr.
      assert (Z.of_nat (Nat.min m len) <= count_days p byDate (f <$> seq (S a) len)).
      { apply IH. intros i Hi. apply Hrun. lia. }
      lia.
Qed.

(** X11.  The streak shows in Consistency: on a usage log with ISO keys a
    streak of [n] days means at least [min n 30] active days in the default
    window when the anchor has a truthy record, and at least [min n 29] when
    the walk started from the day before; the Consistency points are that
    number of active days. *)
Theorem streak_shows_in_consistency byDate d fuel n :
  usage_log byDate -> iso_date d -> iso_keys byDate ->
  computeStreak fuel byDate (print_date d) = Some (Ok n) ->
  exists c,
    scoreConsistency byDate (print_date d) 30 = Ok c
    /\ Z.min n (if truthy (lookup_day byDate (print_date d)) then 30 else 29)
       <= c_activeDays c
    /\ c_points c = of_Z (c_activeDays c).
Proof.
  intros Hlog Hiso Hkeys Hrun. pose proof Hiso as [_ Hv].
  pose proof (iso_date_year d Hiso) as Hy.
  set (start := if truthy (lookup_day byDate (print_date d)) then d else prev_day d).
  assert (Hstart : streak_start byDate (print_date d) = print_date start).
  { unfold streak_start, start.
    destruct (truthy (lookup_day byDate (print_date d))); simpl; [done|].
    by apply addDays_prev_day. }
  assert (Hvs : valid_date start).
  { unfold start. destruct (truthy _); [done|by apply prev_day_valid]. }
  destruct (streak_loop_terminates byDate start Hvs Hkeys)
    as (n0 & _ & Hact & _ & Hall).
  assert (n = Z.of_nat n0) as ->.
  { unfold computeStreak in Hrun. rewrite Hstart in Hrun.
    apply (streak_loop_more_fuel _ _ (fuel + S n0)) in Hrun; [|lia].
    rewrite Hall in Hrun by lia. injection Hrun as <-. lia. }
  assert (Hpos : forall k, (k < n0)%nat ->
            positive_activity (lookup_day byDate (print_date (days_before k start))) = true).
  { intros k Hk. rewrite <- usage_log_active by done. by apply Hact. }
  unfold scoreConsistency, consistency_body.
  rewrite (for_window_dates consistency_day), consistency_count by done.
  cbn [mbind result_bind]. eexists. split; [reflexivity|].
  cbn [c_activeDays c_points]. rewrite Z.add_0_l. split; [|apply consistency_points_30].
  rewrite window_dates_calendar by done.
  unfold start in Hpos. destruct (truthy (lookup_day byDate (print_date d))).
  - pose proof (count_days_prefix positive_activity byDate
                  (fun i => print_date (days_before i d)) 30 0 n0) as Hcount.
    specialize (Hcount ltac:(intros i Hi; apply Hpos; lia)). lia.
  - change (seq 0 30) with (0%nat :: seq 1 29). cbn [fmap list_fmap count_days].
    pose proof (count_days_prefix positive_activity byDate
                  (fun i => print_date (days_before i d)) 29 1 n0) as Hcount.
    assert (forall i, (1 <= i < 1 + n0)%nat ->
              positive_activity (lookup_day byDate (print_date (days_before i d))) = true)
      as Hrun'.
    { intros i Hi. destruct i as [|i]; [lia|].
      rewrite days_before_S, <- days_before_prev. apply Hpos. lia. }
    specialize (Hcount Hrun').
    destruct (positive_activity (lookup_day byDate (print_date (days_before 0 d)))); lia.
Qed.

Lemma streak_shows_in_consistency_witness :
  exists c,
    scoreConsistency readme_log (print_date march10_date) 30 = Ok c
    /\ Z.min 36 (if truthy (lookup_day readme_log (print_date march10_date))
                 then 30 else 29)
       <= c_activeDays c
    /\ c_points c = of_Z (c_activeDays c).
Proof.
  apply (streak_shows_in_consistency readme_log march10_date 37 36).
  - apply map_Forall_to_list. unfold readme_log. vm_compute. repeat constructor.
  - unfold iso_date, valid_date. simpl. lia.
  - apply map_Forall_to_list. unfold readme_log.
    change (map_to_list _) with
      (map_to_list (list_to_map (M := gmap string jsval)
         (map (fun k => (print_date (days_before k march10_date), readme_day k))
              (seq 0 36)))).
    apply Forall_forall. intros [k v] Hin.
    apply elem_of_map_to_list, elem_of_list_to_map_2, list_elem_of_In, in_map_iff in Hin
      as (i & [= <- <-] & Hi).
    apply in_seq in Hi. exists (days_before i march10_date). split; [|done].
    split; [|apply days_before_valid; unfold valid_date; simpl; lia].
    pose proof (days_before_year i march10_date). simpl in *. lia.
  - vm_compute. reflexivity.
Defined.

(** ** Volume as a function of the hours *)

Lemma volume_points_Fin t :
  Math_min (of_Z 15) (Math_round (num_mul (num_div (Fin t) (of_Z 100)) (of_Z 15)))
  = of_Z (volume_points t).
Proof.
  change (of_Z 100) with (Fin (inject_Z 100)). rewrite num_div_pos by done.
  change (Math_round (num_mul (Fin (t / inject_Z 100)) (of_Z 15)))
    with (of_Z (Qfloor (t / inject_Z 100 * inject_Z 15 + (1 # 2)))).
  by rewrite Math_min_of_Z.
Qed.

Lemma volume_points_le t1 t2 : (t1 <= t2)%Q -> volume_points t1 <= volume_points t2.
Proof.
  intros Hle. unfold volume_points.
  assert (Qfloor (t1 / inject_Z 100 * inject_Z 15 + (1 # 2))
          <= Qfloor (t2 / inject_Z 100 * inject_Z 15 + (1 # 2))); [|lia].
  apply Qfloor_resp_le. change (inject_Z 100) with 100%Q. change (inject_Z 15) with 15%Q.
  unfold Qdiv. change (/ 100)%Q with (1 # 100)%Q. lra.
Qed.

Lemma volume_points_comp t1 t2 : (t1 == t2)%Q -> volume_points t1 = volume_points t2.
Proof.
  intros Heq. apply Z.le_antisymm; apply volume_points_le; rewrite Heq; apply Qle_refl.
Qed.

Lemma scoreVolume_usage byDate today (w : nat) :
  usage_log byDate ->
  exists t,
    scoreVolume byDate today w = Ok (mkVolume (Fin t) (of_Z (volume_points t)))
    /\ (t == sum_days record_hours byDate (window_dates today w))%Q.
Proof.
  intros Hlog. unfold scoreVolume, volume_body.
  rewrite (for_window_dates volume_day).
  destruct (volume_sum byDate Hlog (window_dates today w) (inject_Z 0)) as (t & Hv & Ht).
  change (Fin (inject_Z 0)) with (of_Z 0) in Hv. rewrite Hv. cbn [mbind result_bind].
  exists t. rewrite volume_points_Fin. split; [done|].
  rewrite Ht. change (inject_Z 0) with 0%Q. ring.
Qed.

Lemma sum_days_le f byDate1 byDate2 dates :
  (forall d, d ∈ dates -> (f (lookup_day byDate1 d) <= f (lookup_day byDate2 d))%Q) ->
  (sum_days f byDate1 dates <= sum_days f byDate2 dates)%Q.
Proof.
  induction dates as [|d rest IH]; intros Hle; simpl; [apply Qle_refl|].
  apply Qplus_le_compat; [apply Hle; by left|].
  apply IH. intros x Hx. apply Hle. by right.
Qed.

Lemma sum_days_ext f byDate1 byDate2 dates :
  (forall d, d ∈ dates -> (f (lookup_day byDate1 d) == f (lookup_day byDate2 d))%Q) ->
  (sum_days f byDate1 dates == sum_days f byDate2 dates)%Q.
Proof.
  intros Heq. apply Qle_antisym; apply sum_days_le; intros d Hd;
    rewrite (Heq d Hd); apply Qle_refl.
Qed.

(** X12.  More hours never lower Volume: of two usage logs, the one that
    has at least as many hours on every date of the window gets at least as
    many Volume points, and never more than 15. *)
Theorem volume_grows_with_hours byDate1 byDate2 today (w : nat) :
  usage_log byDate1 -> usage_log byDate2 ->
  (forall d, d ∈ window_dates today w ->
     (record_hours (lookup_day byDate1 d) <= record_hours (lookup_day byDate2 d))%Q) ->
  exists v1 v2 p1 p2,
    scoreVolume byDate1 today w = Ok v1 /\ scoreVolume byDate2 today w = Ok v2
    /\ v_points v1 = of_Z p1 /\ v_points v2 = of_Z p2
    /\ p1 <= p2 <= 15.
Proof.
  intros Hlog1 Hlog2 Hle.
  destruct (scoreVolume_usage byDate1 today w Hlog1) as (t1 & -> & Ht1).
  destruct (scoreVolume_usage byDate2 today w Hlog2) as (t2 & -> & Ht2).
  do 2 eexists. exists (volume_points t1), (volume_points t2).
  split; [reflexivity|]. split; [reflexivity|]. split; [done|]. split; [done|].
  split.
  - apply volume_points_le. rewrite Ht1, Ht2. by apply sum_days_le.
  - unfold volume_points. lia.
Qed.

Lemma volume_grows_with_hours_witness :
  exists v1 v2 p1 p2,
    scoreVolume {[ march10 := hours 1 2 ]} march10 30 = Ok v1
    /\ scoreVolume {[ march10 := hours 48 71 ]} march10 30 = Ok v2
    /\ v_points v1 = of_Z p1 /\ v_points v2 = of_Z p2
    /\ p1 <= p2 <= 15.
Proof.
  apply (volume_grows_with_hours {[ march10 := hours 1 2 ]} {[ march10 := hours 48 71 ]}
           march10 30).
  - apply map_Forall_singleton. reflexivity.
  - apply map_Forall_singleton. reflexivity.
  - apply Forall_forall. unfold window_dates. simpl seq. cbn [map].
    repeat (constructor; [vm_compute; discriminate|]). constructor.
Defined.

(** ** Plain numbers as records *)

Lemma positive_number_record q :
  (0 < q)%Q ->
  day_record (Prim (JNum (Fin q))) = true
  /\ truthy (Prim (JNum (Fin q))) = true
  /\ positive_activity (Prim (JNum (Fin q))) = true.
Proof.
  intros Hq. assert (Hrec : day_record (Prim (JNum (Fin q))) = true).
  { apply Qle_bool_iff. lra. }
  split; [done|]. split.
  - simpl. by rewrite Qeq_bool_pos.
  - unfold positive_activity. rewrite Hrec. by apply Qlt_bool_iff.
Qed.

Lemma secondary_only_record q :
  (0 < q)%Q ->
  day_record (JObj (JNum (of_Z 0)) (JNum (Fin q))) = true
  /\ positive_activity (JObj (JNum (of_Z 0)) (JNum (Fin q))) = true.
Proof.
  intros Hq. assert (Hrec : day_record (JObj (JNum (of_Z 0)) (JNum (Fin q))) = true).
  { simpl. apply Qle_bool_iff. lra. }
  split; [done|]. unfold positive_activity. rewrite Hrec. apply Qlt_bool_iff.
  simpl. change (inject_Z 0) with 0%Q. lra.
Qed.

(** A positive number and the record with no primary hours and that many
    secondary hours take every step but that of Volume alike. *)
Lemma number_steps q :
  (0 < q)%Q ->
  let v1 := Prim (JNum (Fin q)) in
  let v2 := JObj (JNum (of_Z 0)) (JNum (Fin q)) in
  (forall a, consistency_day v1 a = consistency_day v2 a)
  /\ (forall a, autonomy_day v1 a = autonomy_day v2 a)
  /\ (forall a, ghost_day v1 a = ghost_day v2 a)
  /\ truthy v1 = truthy v2 /\ is_active v1 = is_active v2.
Proof.
  intros Hq v1 v2.
  destruct (positive_number_record q Hq) as (Hr1 & Ht1 & Hp1).
  destruct (secondary_only_record q Hq) as (Hr2 & Hp2).
  split; [|split; [|split; [|split]]].
  - intros a. rewrite !consistency_day_count by by right.
    unfold v1, v2. by rewrite Hp1, Hp2.
  - intros [m s]. subst v1 v2.
    cbv beta iota zeta delta [autonomy_day truthy truthy_prim main_of sub_of js_or negb js_zero].
    rewrite (Qeq_bool_pos q Hq). reflexivity.
  - intros [g a]. subst v1 v2.
    cbv beta iota zeta delta [ghost_day truthy truthy_prim main_of sub_of js_or negb js_zero].
    rewrite (Qeq_bool_pos q Hq). reflexivity.
  - subst v1 v2. by rewrite Ht1.
  - subst v1 v2. rewrite !day_record_active by done. by rewrite Hp1, Hp2.
Qed.

(** X13.  A plain positive number [q] is read as a record without primary
    hours and with [q] secondary hours: replacing one by the other at a date
    of a usage log leaves the Consistency, Autonomy and GhostDays results and
    the streak as they are, and the Volume points and total hours too. *)
Theorem plain_number_is_secondary_hours byDate today d q (w fuel : nat) :
  usage_log byDate -> (0 < q)%Q ->
  let byDate1 := <[d := Prim (JNum (Fin q))]> byDate in
  let byDate2 := <[d := JObj (JNum (of_Z 0)) (JNum (Fin q))]> byDate in
  scoreConsistency byDate1 today w = scoreConsistency byDate2 today w
  /\ scoreAutonomy byDate1 today w = scoreAutonomy byDate2 today w
  /\ scoreGhostDays byDate1 today w = scoreGhostDays byDate2 today w
  /\ computeStreak fuel byDate1 today = computeStreak fuel byDate2 today
  /\ exists v1 v2 t1 t2,
       scoreVolume byDate1 today w = Ok v1 /\ scoreVolume byDate2 today w = Ok v2
       /\ v_points v1 = v_points v2
       /\ v_totalHours v1 = Fin t1 /\ v_totalHours v2 = Fin t2 /\ (t1 == t2)%Q.
Proof.
  intros Hlog Hq byDate1 byDate2.
  destruct (number_steps q Hq) as (Hc & Ha & Hg & Ht & Hact).
  assert (Hstep : forall {B} (step : jsval -> B -> result B),
            (forall acc, step (Prim (JNum (Fin q))) acc
                         = step (JObj (JNum (of_Z 0)) (JNum (Fin q))) acc) ->
            forall x acc, step (lookup_day byDate1 x) acc = step (lookup_day byDate2 x) acc).
  { intros B step Hs x acc. unfold byDate1, byDate2. rewrite !lookup_day_insert.
    destruct (decide (d = x)); [apply Hs|done]. }
  split; [|split; [|split; [|split]]].
  - unfold scoreConsistency, consistency_body.
    rewrite (for_window_ext consistency_day byDate1 byDate2); [done|].
    intros x _ acc. by apply Hstep.
  - unfold scoreAutonomy, autonomy_body.
    rewrite (for_window_ext autonomy_day byDate1 byDate2); [done|].
    intros x _ acc. by apply Hstep.
  - unfold scoreGhostDays, ghost_body.
    rewrite (for_window_ext ghost_day byDate1 byDate2); [done|].
    intros x _ acc. by apply Hstep.
  - unfold computeStreak, streak_start.
    assert (truthy (lookup_day byDate1 today) = truthy (lookup_day byDate2 today)) as ->.
    { unfold byDate1, byDate2. rewrite !lookup_day_insert.
      destruct (decide (d = today)); done. }
    apply streak_loop_ext. intros x. unfold byDate1, byDate2.
    rewrite !lookup_day_insert. destruct (decide (d = x)); done.
  - destruct (positive_number_record q Hq) as (Hr1 & _).
    destruct (secondary_only_record q Hq) as (Hr2 & _).
    destruct (scoreVolume_usage byDate1 today w) as (t1 & -> & Ht1);
      [by apply map_Forall_insert_2|].
    destruct (scoreVolume_usage byDate2 today w) as (t2 & -> & Ht2);
      [by apply map_Forall_insert_2|].
    assert (Heq : (t1 == t2)%Q).
    { rewrite Ht1, Ht2. apply sum_days_ext. intros x _.
      unfold byDate1, byDate2. rewrite !lookup_day_insert.
      destruct (decide (d = x)); [|done]. simpl. change (inject_Z 0) with 0%Q. ring. }
    do 2 eexists. exists t1, t2.
    split; [reflexivity|]. split; [reflexivity|].
    cbn [v_points v_totalHours]. by rewrite (volume_points_comp t1 t2 Heq).
Qed.

Lemma plain_number_is_secondary_hours_witness :
  let byDate1 := <[march10 := Prim (JNum (Fin 3))]> log_in_window in
  let byDate2 := <[march10 := JObj (JNum (of_Z 0)) (JNum (Fin 3))]> log_in_window in
  scoreConsistency byDate1 march10 30 = scoreConsistency byDate2 march10 30
  /\ scoreAutonomy byDate1 march10 30 = scoreAutonomy byDate2 march10 30
  /\ scoreGhostDays byDate1 march10 30 = scoreGhostDays byDate2 march10 30
  /\ computeStreak 5 byDate1 march10 = computeStreak 5 byDate2 march10
  /\ exists v1 v2 t1 t2,
       scoreVolume byDate1 march10 30 = Ok v1 /\ scoreVolume byDate2 march10 30 = Ok v2
       /\ v_points v1 = v_points v2
       /\ v_totalHours v1 = Fin t1 /\ v_totalHours v2 = Fin t2 /\ (t1 == t2)%Q.
Proof.
  apply (plain_number_is_secondary_hours log_in_window march10 march10 3 30 5).
  - apply map_Forall_singleton. reflexivity.
  - reflexivity.
Defined.

(** ** A window without primary hours *)

Lemma scoreAutonomy_usage byDate today (w : nat) :
  usage_log byDate ->
  exists m s,
    scoreAutonomy byDate today w
    = Ok (mkAutonomy (autonomy_ratio (Fin m) (Fin s))
            (Math_min (of_Z 25)
               (Math_round (num_mul (autonomy_ratio (Fin m) (Fin s)) (Fin (25 # 2)))))
            (Fin m) (Fin s))
    /\ (m == sum_days main_hours byDate (window_dates today w))%Q
    /\ (s == sum_days sub_hours byDate (window_dates today w))%Q.
Proof.
  intros Hlog. unfold scoreAutonomy, autonomy_body.
  rewrite (for_window_dates autonomy_day).
  destruct (autonomy_sum byDate Hlog (window_dates today w) (inject_Z 0) (inject_Z 0))
    as (m & s & Ha & Hm & Hs).
  change (Fin (inject_Z 0)) with (of_Z 0) in Ha. rewrite Ha. cbn [mbind result_bind].
  exists m, s. split; [done|]. rewrite Hm, Hs. change (inject_Z 0) with 0%Q.
  split; ring.
Qed.

Lemma scoreGhostDays_usage byDate today (w : nat) :
  usage_log byDate ->
  let g := count_days ghost_record byDate (window_dates today w) in
  let a := count_days positive_activity byDate (window_dates today w) in
  let pct := if num_gt (of_Z a) (of_Z 0) then num_div (of_Z g) (of_Z a) else of_Z 0 in
  scoreGhostDays byDate today w
  = Ok (mkGhost g a pct (Math_min (of_Z 20) (Math_round (num_mul pct (of_Z 25))))).
Proof.
  intros Hlog. unfold scoreGhostDays, ghost_body.
  rewrite (for_window_dates ghost_day), ghost_count by done.
  by rewrite !Z.add_0_l.
Qed.

Lemma field_hours_nonneg p : hours_field p = true -> (0 <= field_hours p)%Q.
Proof. intros (q & _ & Hq & Hq0)%field_or_zero. by rewrite <- Hq. Qed.

Lemma sub_hours_nonneg v :
  v = Prim JUndefined \/ day_record v = true -> (0 <= sub_hours v)%Q.
Proof.
  intros [->|Hrec]; [done|].
  destruct v as [[| | |[| | |q]]|m s]; simpl in Hrec; try discriminate.
  - by apply Qle_bool_iff.
  - apply andb_prop in Hrec as [_ Hs]. by apply field_hours_nonneg.
Qed.

Lemma record_hours_parts v : (record_hours v == main_hours v + sub_hours v)%Q.
Proof. destruct v; simpl; ring. Qed.

Lemma sum_days_nonneg f byDate dates :
  (forall d, d ∈ dates -> (0 <= f (lookup_day byDate d))%Q) ->
  (0 <= sum_days f byDate dates)%Q.
Proof.
  induction dates as [|d rest IH]; intros Hnn; simpl; [done|].
  assert (0 <= f (lookup_day byDate d))%Q by (apply Hnn; by left).
  assert (0 <= sum_days f byDate rest)%Q by (apply IH; intros x Hx; apply Hnn; by right).
  lra.
Qed.

Lemma sum_days_pos f byDate dates x :
  (forall d, d ∈ dates -> (0 <= f (lookup_day byDate d))%Q) ->
  x ∈ dates -> (0 < f (lookup_day byDate x))%Q ->
  (0 < sum_days f byDate dates)%Q.
Proof.
  induction dates as [|d rest IH]; intros Hnn Hx Hpos; [by apply elem_of_nil in Hx|].
  simpl.
  assert (0 <= f (lookup_day byDate d))%Q by (apply Hnn; by left).
  assert (0 <= sum_days f byDate rest)%Q
    by (apply sum_days_nonneg; intros y Hy; apply Hnn; by right).
  apply elem_of_cons in Hx as [->|Hx]; [lra|].
  assert (0 < sum_days f byDate rest)%Q; [|lra].
  apply IH; [|done..]. intros y Hy. apply Hnn. by right.
Qed.

Lemma sum_days_zero f byDate dates :
  (forall d, d ∈ dates -> (f (lookup_day byDate d) == 0)%Q) ->
  (sum_days f byDate dates == 0)%Q.
Proof.
  induction dates as [|d rest IH]; intros Hz; simpl; [done|].
  rewrite (Hz d) by by left. rewrite IH; [ring|].
  intros x Hx. apply Hz. by right.
Qed.

Lemma count_days_ext p1 p2 byDate dates :
  (forall d, d ∈ dates -> p1 (lookup_day byDate d) = p2 (lookup_day byDate d)) ->
  count_days p1 byDate dates = count_days p2 byDate dates.
Proof.
  induction dates as [|d rest IH]; intros Heq; simpl; [done|].
  rewrite (Heq d) by by left. rewrite IH; [done|].
  intros x Hx. apply Heq. by right.
Qed.

Lemma count_days_pos p byDate dates x :
  x ∈ dates -> p (lookup_day byDate x) = true -> 0 < count_days p byDate dates.
Proof.
  induction dates as [|d rest IH]; intros Hx Hp; [by apply elem_of_nil in Hx|].
  simpl. pose proof (count_days_nonneg p byDate rest).
  apply elem_of_cons in Hx as [->|Hx].
  - rewrite Hp. lia.
  - specialize (IH Hx Hp). destruct (p (lookup_day byDate d)); lia.
Qed.

(** X14.  A window with activity but without primary hours, as a log of
    plain numbers gives, gets the ratio 2 and the full 25 points of Autonomy,
    and every active day is a ghost day: the percentage is 1 and GhostDays
    gives its full 20 points. *)
Theorem secondary_hours_alone byDate today (w : nat) x :
  usage_log byDate ->
  (forall d, d ∈ window_dates today w -> (main_hours (lookup_day byDate d) == 0)%Q) ->
  x ∈ window_dates today w -> positive_activity (lookup_day byDate x) = true ->
  exists a g pct,
    scoreAutonomy byDate today w = Ok a /\ scoreGhostDays byDate today w = Ok g
    /\ a_ratio a = of_Z 2 /\ a_points a = of_Z 25
    /\ 0 < g_activeDays g /\ g_ghostDays g = g_activeDays g
    /\ g_pct g = Fin pct /\ (pct == 1)%Q /\ g_points g = of_Z 20.
Proof.
  intros Hlog Hmain Hx Hpos.
  destruct (scoreAutonomy_usage byDate today w Hlog) as (m & s & -> & Hm & Hs).
  rewrite (scoreGhostDays_usage byDate today w Hlog).
  assert (Hm0 : (m == 0)%Q) by (rewrite Hm; by apply sum_days_zero).
  assert (Hs0 : (0 < s)%Q).
  { rewrite Hs. apply (sum_days_pos _ _ _ x); [|done|].
    - intros d _. by apply sub_hours_nonneg, lookup_day_usage.
    - unfold positive_activity in Hpos. apply andb_prop in Hpos as [_ Hpos].
      apply Qlt_bool_iff in Hpos. rewrite record_hours_parts, (Hmain x Hx) in Hpos. lra. }
  assert (Hratio : autonomy_ratio (Fin m) (Fin s) = of_Z 2).
  { unfold autonomy_ratio. rewrite !num_gt_zero.
    assert (Qlt_bool 0 m = false) as -> by (apply Qlt_bool_false; lra).
    assert (Qlt_bool 0 s = true) as -> by by apply Qlt_bool_iff. done. }
  rewrite Hratio.
  assert (Hcount : count_days ghost_record byDate (window_dates today w)
                   = count_days positive_activity byDate (window_dates today w)).
  { apply count_days_ext. intros d Hd. unfold ghost_record.
    assert (Qeq_bool (main_hours (lookup_day byDate d)) 0 = true) as ->.
    { apply Qeq_bool_iff. by apply Hmain. }
    apply andb_true_r. }
  rewrite Hcount.
  set (a := count_days positive_activity byDate (window_dates today w)).
  assert (Ha : 0 < a) by by apply (count_days_pos _ _ _ x).
  assert (Haq : (0 < inject_Z a)%Q) by by apply of_Z_pos.
  change (num_gt (of_Z a) (of_Z 0)) with (Qlt_bool 0 (inject_Z a)).
  assert (Qlt_bool 0 (inject_Z a) = true) as -> by by apply Qlt_bool_iff.
  change (num_div (of_Z a) (of_Z a)) with (num_div (Fin (inject_Z a)) (Fin (inject_Z a))).
  rewrite num_div_pos by done.
  do 2 eexists. exists (inject_Z a / inject_Z a)%Q.
  split; [reflexivity|]. split; [reflexivity|].
  cbn [a_ratio a_points g_activeDays g_ghostDays g_pct g_points].
  assert (Hone : (inject_Z a / inject_Z a == 1)%Q) by (field; lra).
  split; [done|]. split; [reflexivity|]. split; [done|]. split; [done|].
  split; [done|]. split; [done|].
  change (Math_round (num_mul (Fin (inject_Z a / inject_Z a)) (of_Z 25)))
    with (of_Z (Qfloor (inject_Z a / inject_Z a * inject_Z 25 + (1 # 2)))).
  rewrite Math_min_of_Z. f_equal.
  rewrite (Qfloor_comp _ (51 # 2)); [done|]. rewrite Hone. reflexivity.
Qed.

Lemma secondary_hours_alone_witness :
  exists a g pct,
    scoreAutonomy {[ march10 := Prim (JNum (Fin 3)) ]} march10 30 = Ok a
    /\ scoreGhostDays {[ march10 := Prim (JNum (Fin 3)) ]} march10 30 = Ok g
    /\ a_ratio a = of_Z 2 /\ a_points a = of_Z 25
    /\ 0 < g_activeDays g /\ g_ghostDays g = g_activeDays g
    /\ g_pct g = Fin pct /\ (pct == 1)%Q /\ g_points g = of_Z 20.
Proof.
  apply (secondary_hours_alone {[ march10 := Prim (JNum (Fin 3)) ]} march10 30 march10).
  - apply map_Forall_singleton. reflexivity.
  - intros d _. unfold lookup_day.
    destruct (decide (d = march10)) as [->|Hne].
    + rewrite lookup_singleton_eq. reflexivity.
    + rewrite lookup_singleton_ne by done. reflexivity.
  - apply (window_dates_index march10 30 0). apply elem_of_seq. lia.
  - reflexivity.
Defined.

(** ** Streak points *)

Lemma of_Z_inj a b : of_Z a = of_Z b -> a = b.
Proof. unfold of_Z, inject_Z. by intros [= ->]. Qed.

(** X15.  The Streak points are [min(10, floor((2 * streak + 3) / 6))]:
    they reach 10 exactly from a streak of 29 days on, and are 0 exactly for
    streaks of at most one day. *)
Theorem streak_points_by_length n :
  s_points (scoreStreak n) = of_Z (Z.min 10 ((2 * n + 3) / 6))
  /\ (s_points (scoreStreak n) = of_Z 10 <-> 29 <= n)
  /\ (s_points (scoreStreak n) = of_Z 0 <-> -1 <= n <= 1).
Proof.
  assert (Hpts : s_points (scoreStreak n) = of_Z (Z.min 10 ((2 * n + 3) / 6))).
  { change (s_points (scoreStreak n))
      with (Math_min (of_Z 10) (Math_round
              (num_mul (num_div (Fin (inject_Z n)) (Fin (inject_Z 30))) (of_Z 10)))).
    rewrite num_div_pos by done.
    change (Math_round (num_mul (Fin (inject_Z n / inject_Z 30)) (of_Z 10)))
      with (of_Z (Qfloor (inject_Z n / inject_Z 30 * inject_Z 10 + (1 # 2)))).
    rewrite Math_min_of_Z. do 2 f_equal.
    rewrite (Qfloor_comp _ ((2 * n + 3) # 6)).
    - reflexivity.
    - unfold Qeq, Qdiv, Qmult, Qplus, Qinv, inject_Z. simpl. lia. }
  rewrite Hpts. split; [done|].
  split; (split; [intros H%of_Z_inj | intros H; f_equal]);
    Z.to_euclidean_division_equations; lia.
Qed.

(** ** Color and grade *)

(** The six outcomes of the two ladders of comparisons. *)
Lemma color_and_grade s :
  (scoreColor s, t_grade (grade s))
  ∈ [ (C.purple, "S"); (C.green, "A"); (C.cyan, "B"); (C.yellow, "C");
      (C.orange, "D"); (C.red, "F") ]%string.
Proof.
  unfold scoreColor, grade.
  destruct (num_ge s (of_Z 90)); [set_solver|].
  destruct (num_ge s (of_Z 75)); [set_solver|].
  destruct (num_ge s (of_Z 60)); [set_solver|].
  destruct (num_ge s (of_Z 45)); [set_solver|].
  destruct (num_ge s (of_Z 30)); set_solver.
Qed.

(** X16.  The color of the total follows the grade: [scoreColor] gives two
    totals the same color exactly when [grade] gives them the same tier;
    purple goes with S and red with F, which is also what a total that is
    [NaN] gets. *)
Theorem color_follows_grade :
  (forall s1 s2,
      scoreColor s1 = scoreColor s2 <-> t_grade (grade s1) = t_grade (grade s2))
  /\ (forall s, scoreColor s = C.purple <-> t_grade (grade s) = "S"%string)
  /\ (forall s, scoreColor s = C.red <-> t_grade (grade s) = "F"%string)
  /\ scoreColor NaN = C.red.
Proof.
  assert (Hpair : forall s1 s2,
            scoreColor s1 = scoreColor s2 <-> t_grade (grade s1) = t_grade (grade s2)).
  { intros s1 s2.
    pose proof (color_and_grade s1) as H1. pose proof (color_and_grade s2) as H2.
    repeat (apply elem_of_cons in H1 as [[= -> ->]|H1]);
      try (by apply elem_of_nil in H1);
      repeat (apply elem_of_cons in H2 as [[= -> ->]|H2]);
      try (by apply elem_of_nil in H2); split; intros H;
      first [reflexivity | discriminate H]. }
  split; [exact Hpair|]. split; [|split; [|reflexivity]].
  - intros s. apply (Hpair s (of_Z 100)).
  - intros s. apply (Hpair s (of_Z 0)).
Qed.

(** ** The bar *)

Lemma num_div_nonzero x y : ~ (y == 0)%Q -> num_div (Fin x) (Fin y) = Fin (x / y).
Proof.
  intros Hy. simpl. unfold Qsgn. destruct (y ?= 0)%Q eqn:E; try done.
  exfalso. apply Hy. by apply Qeq_alt.
Qed.

Lemma Qtrunc_inject_Z z : Qtrunc (inject_Z z) = z.
Proof. unfold Qtrunc. simpl. apply Z.quot_1_r. Qed.

Lemma js_repeat_of_Z s k :
  js_repeat s (of_Z k) = if k <? 0 then RangeError else InRange (copies (Z.to_nat k) s).
Proof. unfold js_repeat, of_Z. by rewrite Qtrunc_inject_Z. Qed.

Lemma num_sub_of_Z a b : num_sub (of_Z a) (of_Z b) = Fin (inject_Z a + - inject_Z b).
Proof. reflexivity. Qed.

Lemma Qtrunc_sub a b : Qtrunc (inject_Z a + - inject_Z b) = a - b.
Proof.
  unfold Qtrunc, Qplus, Qopp, inject_Z. simpl.
  rewrite Z.quot_1_r. lia.
Qed.

Lemma miniBar_filled p m w k :
  ~ (m == 0)%Q -> k = Qfloor (p / m * inject_Z w + (1 # 2)) ->
  miniBar (Fin p) (Fin m) (of_Z w)
  = if k <? 0 then RangeError
    else if w - k <? 0 then RangeError
    else InRange (C.cyan ++ copies (Z.to_nat k) "█" ++ C.dim
                    ++ copies (Z.to_nat (w - k)) "░" ++ C.reset)%string.
Proof.
  intros Hm ->. unfold miniBar. rewrite num_div_nonzero by done.
  change (Math_round (num_mul (Fin (p / m)) (of_Z w)))
    with (of_Z (Qfloor (p / m * inject_Z w + (1 # 2)))).
  set (k := Qfloor (p / m * inject_Z w + (1 # 2))).
  rewrite js_repeat_of_Z. destruct (k <? 0); [done|].
  cbn [mbind ranged_bind]. rewrite num_sub_of_Z.
  unfold js_repeat. rewrite Qtrunc_sub. by destruct (w - k <? 0).
Qed.



(** A bar for points within their maximum. *)
Lemma miniBar_points pts cap :
  0 <= pts <= cap -> 0 < cap ->
  exists k : nat,
    (k <= 10)%nat /\ miniBar (of_Z pts) (of_Z cap) (of_Z 10) = InRange (bar k 10).
Proof.
  intros Hpts Hcap.
  assert (Hc : (0 < inject_Z cap)%Q) by by apply of_Z_pos.
  assert (Hm : ~ (inject_Z cap == 0)%Q) by lra.
  pose proof (of_Z_nonneg pts ltac:(lia)) as Hp.
  assert (Hle : (inject_Z pts <= inject_Z cap)%Q) by (apply inject_Z_le; lia).
  unfold of_Z at 1 2.
  rewrite (miniBar_filled _ _ 10 _ Hm eq_refl).
  set (k := Qfloor (inject_Z pts / inject_Z cap * inject_Z 10 + (1 # 2))).
  assert (Hk : 0 <= k <= 10).
  { apply round_between; change (inject_Z 10) with 10%Q; change (inject_Z 0) with 0%Q.
    - pose proof (Qdiv_nonneg _ _ Hp Hc). lra.
    - assert (inject_Z pts / inject_Z cap <= 1)%Q; [|lra].
      apply Qle_shift_div_r; [done|]. lra. }
  destruct (k <? 0) eqn:E1; [lia|]. destruct (10 - k <? 0) eqn:E2; [lia|].
  exists (Z.to_nat k). split; [lia|]. unfold bar.
  by replace (Z.to_nat (10 - k)) with (10 - Z.to_nat k)%nat by lia.
Qed.

(** X18.  For a report whose points are within their maxima none of the
    five calls of [miniBar] that draw the breakdown throws, and each bar has
    ten cells. *)
Theorem breakdown_bars_fit r :
  report_in_bounds r ->
  Forall (fun b => exists k : nat, (k <= 10)%nat /\ b = InRange (bar k 10)) (row_bars r).
Proof.
  intros (c & a & g & v & s & q & Hc & Hc30 & Ha & Ha25 & Hg & Hg20 & Hv & Hv15
          & Hs & Hs10 & _).
  unfold row_bars, rows. cbn [map]. rewrite Hc, Ha, Hg, Hv, Hs.
  repeat constructor; by apply miniBar_points.
Qed.

Lemma breakdown_bars_fit_witness :
  Forall (fun b => exists k : nat, (k <= 10)%nat /\ b = InRange (bar k 10))
    (row_bars empty_report).
Proof.
  apply (breakdown_bars_fit empty_report).
  exists 0, 0, 0, 0, 0, 0%Q. repeat split; try done; lia.
Defined.

(** ** [localToday] *)

(** *** A year from 1000 to 9999 prints in four digits *)

(** Counting up in decimal keeps the number of digits, except from a row
    of nines. *)
Lemma succ_nb_digits u :
  Decimal.nb_digits (Decimal.Little.succ u) = Decimal.nb_digits u
  \/ u = Nat.iter (Decimal.nb_digits u) Decimal.D9 Decimal.Nil.
Proof.
  induction u as [|u IH|u IH|u IH|u IH|u IH|u IH|u IH|u IH|u IH|u IH];
    try (by left); [by right|].
  destruct IH as [IH|IH]; [left|right]; simpl.
  - by rewrite IH.
  - by rewrite <- IH.
Qed.

Lemma of_lu_to_little_uint p :
  Unsigned.of_lu (Pos.to_little_uint p) = N.pos p.
Proof. rewrite <- Unsigned.of_lu_rev. apply Unsigned.of_to. Qed.

Lemma four_digits (k : N) :
  (1000 <= k <= 9999)%N -> Decimal.nb_digits (Unsigned.to_lu k) = 4%nat.
Proof.
  induction k as [|k IH] using N.peano_ind; intros Hk; [lia|].
  destruct (N.eq_dec k 999%N) as [->|Hne]; [reflexivity|].
  specialize (IH ltac:(lia)). rewrite Unsigned.to_lu_succ.
  destruct (succ_nb_digits (Unsigned.to_lu k)) as [->|Hnines]; [done|].
  exfalso. rewrite IH in Hnines.
  destruct k as [|p]; [lia|].
  apply (f_equal Unsigned.of_lu) in Hnines.
  simpl Unsigned.to_lu in Hnines. rewrite of_lu_to_little_uint in Hnines.
  change (Unsigned.of_lu (Nat.iter 4 Decimal.D9 Decimal.Nil)) with 9999%N in Hnines.
  lia.
Qed.

Lemma string_of_uint_length u :
  String.length (NilEmpty.string_of_uint u) = Decimal.nb_digits u.
Proof. induction u; simpl; congruence. Qed.

Lemma js_String_year y : 1000 <= y <= 9999 -> String.length (js_String y) = 4%nat.
Proof.
  intros Hy. rewrite js_String_digits, string_of_uint_length by lia.
  destruct y as [|p|p]; try lia.
  change (digits_of (Z.pos p)) with (Decimal.rev (Pos.to_little_uint p)).
  rewrite nb_digits_rev.
  apply (four_digits (N.pos p)). lia.
Qed.

Lemma padStart_long s n fill : (n <= String.length s)%nat -> padStart s n fill = s.
Proof. intros Hn. unfold padStart. by replace (n - String.length s)%nat with 0%nat by lia. Qed.

Lemma padStart_2_zero s : padStart s 2 "0" = padStart2 s.
Proof.
  destruct s as [|a [|b s]]; [done|done|].
  apply padStart_long. simpl. lia.
Qed.

Lemma string_app_assoc (a b c : string) : ((a ++ b) ++ c = a ++ b ++ c)%string.
Proof.
  induction a as [|x a IH]; [done|].
  change (String x ((a ++ b) ++ c) = String x (a ++ b ++ c))%string. by rewrite IH.
Qed.

Lemma substring_prefix (a b : string) : substring 0 (String.length a) (a ++ b) = a.
Proof.
  induction a as [|x a IH].
  - by destruct b.
  - change (String x (substring 0 (String.length a) (a ++ b)) = String x a).
    by rewrite IH.
Qed.

Lemma print_date_length d :
  1000 <= year d <= 9999 -> valid_date d -> String.length (print_date d) = 10%nat.
Proof.
  intros Hy Hv. destruct (valid_date_fields d Hv) as [Hm Hd].
  destruct (padStart2_two_digits _ Hm) as (_ & Lm & _).
  destruct (padStart2_two_digits _ Hd) as (_ & Ld & _).
  unfold print_date. rewrite !string_app_length, Lm, Ld, js_String_year by done.
  reflexivity.
Qed.

Lemma year_day_range t :
  1000 <= YearFromTime t <= 9999 -> -354285 <= t < 2932897.
Proof.
  intros Hy. pose proof (YearFromTime_bounds t) as [Hlo Hhi].
  pose proof (DayFromYear_mono 1000 (YearFromTime t) ltac:(lia)) as H1.
  pose proof (DayFromYear_mono (YearFromTime t + 1) 10000 ltac:(lia)) as H2.
  change (DayFromYear 1000) with (-354285) in H1.
  change (DayFromYear 10000) with 2932897 in H2. lia.
Qed.

(** The text [toISOString] and [slice] give is the one the template
    literal of [addDays] gives, for the years both print in four digits. *)
Lemma localToday_print_date now offset :
  1000 <= YearFromTime (Day (now - offset * 60000)) <= 9999 ->
  localToday now offset
  = InRange (print_date (from_day (Day (now - offset * 60000))))
  /\ iso_date (from_day (Day (now - offset * 60000))).
Proof.
  set (t := now - offset * 60000). intros Hy.
  assert (Hiso : iso_date (from_day (Day t))) by (split; [done|apply from_day_valid]).
  destruct (iso_date_plain _ Hiso) as [Hv Hy'].
  split; [|done].
  unfold localToday. fold t.
  assert (TimeClip t = Some t) as ->.
  { unfold TimeClip. pose proof (year_day_range _ Hy) as Hd.
    unfold Day, msPerDay in Hd.
    assert ((Z.abs t <=? 8640000000000000) = true) as ->; [|done].
    apply Z.leb_le. Z.to_euclidean_division_equations. lia. }
  unfold toISOString.
  assert (((0 <=? YearFromTime (Day t)) && (YearFromTime (Day t) <=? 9999)) = true) as ->.
  { apply andb_true_intro. split; apply Z.leb_le; lia. }
  cbn [mbind ranged_bind mret ranged_ret]. f_equal.
  unfold digits at 1 2 3.
  rewrite padStart_long by (rewrite js_String_year; [lia|done]).
  rewrite !padStart_2_zero.
  set (tail := ("T" ++ _)%string).
  change (js_String (YearFromTime (Day t)) ++ "-"
            ++ padStart2 (js_String (MonthFromTime (Day t) + 1)) ++ "-"
            ++ padStart2 (js_String (DateFromTime (Day t))) ++ tail)%string
    with (js_String (year (from_day (Day t))) ++ "-"
            ++ padStart2 (js_String (month (from_day (Day t)))) ++ "-"
            ++ padStart2 (js_String (day (from_day (Day t)))) ++ tail)%string.
  replace (js_String (year (from_day (Day t))) ++ "-"
            ++ padStart2 (js_String (month (from_day (Day t)))) ++ "-"
            ++ padStart2 (js_String (day (from_day (Day t)))) ++ tail)%string
    with (print_date (from_day (Day t)) ++ tail)%string.
  - rewrite <- (print_date_length (from_day (Day t))) at 1 by done.
    apply substring_prefix.
  - unfold print_date. by rewrite !string_app_assoc.
Qed.

(** X19.  [localToday] returns the local calendar date as [addDays]
    prints it: for a clock reading whose local time falls in a year from 1000
    to 9999 the result is the ISO string of the local day, which [addDays]
    shifts by 0 to itself. *)
Theorem localToday_is_the_local_date now offset :
  let t := now - offset * 60000 in
  1000 <= YearFromTime (Day t) <= 9999 ->
  localToday now offset = InRange (print_date (from_day (Day t)))
  /\ iso_string (print_date (from_day (Day t)))
  /\ addDays (print_date (from_day (Day t))) 0 = print_date (from_day (Day t)).
Proof.
  intros t Hy. destruct (localToday_print_date now offset Hy) as [Htoday Hiso].
  destruct (iso_date_plain _ Hiso) as [Hv Hy'].
  split; [done|]. split; [by exists (from_day (Day t))|].
  rewrite addDays_day_number, Z.add_0_r, from_to_day by done. done.
Qed.

Lemma localToday_is_the_local_date_witness :
  let t := 1710028800000 - -540 * 60000 in
  localToday 1710028800000 (-540) = InRange (print_date (from_day (Day t)))
  /\ iso_string (print_date (from_day (Day t)))
  /\ addDays (print_date (from_day (Day t))) 0 = print_date (from_day (Day t)).
Proof.
  apply (localToday_is_the_local_date 1710028800000 (-540)).
  vm_compute. split; discriminate.
Defined.

(** ** Windows of any size *)



(** ** A whole run *)



(** ** Autonomy as a function of the hours *)

Lemma autonomy_points_Fin q :
  Math_min (of_Z 25) (Math_round (num_mul (Fin q) (Fin (25 # 2))))
  = of_Z (Z.min 25 (Qfloor (q * (25 # 2) + (1 # 2)))).
Proof.
  change (Math_round (num_mul (Fin q) (Fin (25 # 2))))
    with (of_Z (Qfloor (q * (25 # 2) + (1 # 2)))).
  apply Math_min_of_Z.
Qed.

Lemma Qdiv_le_cross s1 m1 s2 m2 :
  (0 < m2)%Q -> (m2 <= m1)%Q -> (0 <= s1)%Q -> (s1 <= s2)%Q ->
  (s1 / m1 <= s2 / m2)%Q.
Proof.
  intros Hm2 Hm Hs1 Hs.
  assert (Hm1 : (0 < m1)%Q) by lra.
  apply Qle_shift_div_l; [done|].
  assert (Heq : (s1 / m1 * m2 == s1 * m2 / m1)%Q) by (field; lra).
  rewrite Heq. apply Qle_shift_div_r; [done|]. nra.
Qed.

(** Fewer primary and more secondary hours never lower the points. *)
Lemma autonomy_points_le m1 s1 m2 s2 :
  (0 <= m2)%Q -> (m2 <= m1)%Q -> (0 <= s1)%Q -> (s1 <= s2)%Q ->
  exists p1 p2,
    Math_min (of_Z 25)
      (Math_round (num_mul (autonomy_ratio (Fin m1) (Fin s1)) (Fin (25 # 2)))) = of_Z p1
    /\ Math_min (of_Z 25)
         (Math_round (num_mul (autonomy_ratio (Fin m2) (Fin s2)) (Fin (25 # 2)))) = of_Z p2
    /\ p1 <= p2 <= 25.
Proof.
  intros Hm2 Hm Hs1 Hs.
  destruct (autonomy_ratio_cases m1 s1) as (q1 & -> & Hpos1 & Htwo1 & Hzero1).
  destruct (autonomy_ratio_cases m2 s2) as (q2 & -> & Hpos2 & Htwo2 & Hzero2).
  rewrite !autonomy_points_Fin. do 2 eexists.
  split; [reflexivity|]. split; [reflexivity|]. split; [|lia].
  destruct (Qlt_le_dec 0 m2) as [Hm2pos|Hm2zero].
  - assert (Hm1pos : (0 < m1)%Q) by lra.
    rewrite (Hpos1 Hm1pos), (Hpos2 Hm2pos).
    apply Z.min_le_compat_l, Qfloor_resp_le.
    pose proof (Qdiv_le_cross s1 m1 s2 m2 Hm2pos Hm Hs1 Hs). lra.
  - assert (Hn2 : ~ (0 < m2)%Q) by lra.
    destruct (Qlt_le_dec 0 s2) as [Hs2pos|Hs2zero].
    + rewrite (Htwo2 Hn2 Hs2pos).
      change (Qfloor (inject_Z 2 * (25 # 2) + (1 # 2))) with 25. lia.
    + assert (Hns2 : ~ (0 < s2)%Q) by lra.
      assert (Hns1 : ~ (0 < s1)%Q) by lra.
      rewrite (Hzero2 Hn2 Hns2).
      change (Qfloor (inject_Z 0 * (25 # 2) + (1 # 2))) with 0.
      assert (Qfloor (q1 * (25 # 2) + (1 # 2)) = 0) as ->; [|lia].
      destruct (Qlt_le_dec 0 m1) as [Hm1pos|Hm1zero].
      * rewrite (Hpos1 Hm1pos).
        rewrite (Qfloor_comp _ (1 # 2)); [done|].
        assert (s1 == 0)%Q as -> by lra. field. lra.
      * rewrite (Hzero1 ltac:(lra) Hns1). reflexivity.
Qed.

Lemma main_hours_nonneg v :
  v = Prim JUndefined \/ day_record v = true -> (0 <= main_hours v)%Q.
Proof.
  intros [->|Hrec]; [done|].
  destruct v as [p|m s]; [done|]. simpl in Hrec.
  apply andb_prop in Hrec as [Hm _]. by apply field_hours_nonneg.
Qed.



(** ** GhostDays points *)

Lemma Qfloor_ratio n d : 0 < d -> Qfloor (inject_Z n / inject_Z d) = n / d.
Proof.
  intros Hd. destruct d as [|p|p]; try lia.
  rewrite (Qfloor_comp _ (n # p)); [reflexivity|].
  unfold Qeq, Qdiv, Qmult, Qinv, inject_Z. simpl. lia.
Qed.

